(** * httpsig.verify: verification of signed HTTP headers

    A shallow embedding of [src/httpsig/verify.py] (classes [Verifier] and
    [HeaderVerifier]) together with the properties of its verification
    pipeline: required-header policy, construction-time checks, dispatch on
    the algorithm family and the value handed to the primitives.

    Conventions.
    - A Python [str] is a [string]; its characters are the code points
      0..255.  A Python [bytes] is a [list byte].
    - A raised exception is the [Err] branch of [result]; the effects of a
      call (console output and calls into collaborators) are recorded, in
      program order, in the event list that the monad [M] carries.
    - The collaborators that [verify.py] imports ([.sign], [.utils],
      [.sign_algorithms], [base64] and the cryptographic primitives) are
      gathered in the class [Externals]; the embedding is parametric in
      them. *)

From Stdlib Require Import Strings.Byte Strings.Ascii Strings.String NArith.
From stdpp Require Import base list strings gmap sets.

(** ** Python text and bytes *)

Abbreviation bytes := (list byte).

(** What the code tells apart with [isinstance(x, six.string_types)]. *)
Inductive pydata :=
| Str (s : string)
| Bytes (b : bytes).

(** Exceptions, by the class the code (or the interpreter) raises. *)
Inductive exn :=
| HttpSigException (msg : string)
| Exception (msg : string)
| KeyError (key : string)
| TypeError (msg : string)
| UnicodeEncodeError (s : string)
| AttributeError (msg : string)
| BinasciiError (msg : string)
| ValueError (msg : string).

Inductive result (A : Type) :=
| Ok (a : A)
| Err (e : exn).
Arguments Ok {A} a.
Arguments Err {A} e.

Module PyStr.

Definition code (c : ascii) : N := N_of_ascii c.

(** [str.isupper] on one character of the range 0..255: A-Z, and the
    Latin-1 capitals U+00C0..U+00DE without the multiplication sign. *)
Definition is_upper (c : ascii) : bool :=
  let n := code c in
  ((65 <=? n) && (n <=? 90))%N
  || ((192 <=? n) && (n <=? 222) && negb (n =? 215))%N.

(** [str.lower] on one character of that range. *)
Definition lower_char (c : ascii) : ascii :=
  if is_upper c then ascii_of_N (code c + 32) else c.

(** [s.lower()] *)
Fixpoint lower (s : string) : string :=
  match s with
  | EmptyString => EmptyString
  | String c s' => String (lower_char c) (lower s')
  end.

Fixpoint has_upper (s : string) : bool :=
  match s with
  | EmptyString => false
  | String c s' => is_upper c || has_upper s'
  end.

Definition is_space (c : ascii) : bool := (code c =? 32)%N.

(** [s.split(' ')]: cut at every single space; two spaces in a row give an
    empty entry and the empty string gives the list holding the empty
    string. *)
Fixpoint split_space (s : string) : list string :=
  match s with
  | EmptyString => [EmptyString]
  | String c s' =>
      if is_space c then EmptyString :: split_space s'
      else match split_space s' with
           | w :: ws => String c w :: ws
           | [] => [String c EmptyString]
           end
  end.

(** [sep.join(l)] *)
Fixpoint join (sep : string) (l : list string) : string :=
  match l with
  | [] => EmptyString
  | [x] => x
  | x :: rest => x +:+ sep +:+ join sep rest
  end.

Fixpoint has_space (s : string) : bool :=
  match s with
  | EmptyString => false
  | String c s' => is_space c || has_space s'
  end.

Definition is_ascii_char (c : ascii) : bool := (code c <? 128)%N.

Fixpoint is_ascii (s : string) : bool :=
  match s with
  | EmptyString => true
  | String c s' => is_ascii_char c && is_ascii s'
  end.

Fixpoint to_bytes (s : string) : bytes :=
  match s with
  | EmptyString => []
  | String c s' => byte_of_ascii c :: to_bytes s'
  end.

(** [s.encode("ascii")] *)
Definition encode_ascii (s : string) : result bytes :=
  if is_ascii s then Ok (to_bytes s) else Err (UnicodeEncodeError s).

End PyStr.

(** ** Effects: exceptions and the record of calls *)

(** The hash object that the RSA branch builds: [h = self._hash.new()]
    followed by [h.update(data)]. *)
Record hashobj := { hash_module : string; hash_input : bytes }.

Inductive event :=
| Print (msg : string)
| Call_parse_authorization_header (value : string)
| Call_parse_signature_header (value : string)
| Call_Signer_init (algorithm : string) (has_sign_algorithm : bool)
| Call_generate_message (names : list string)
| Call_b64decode (s : bytes)
| Call_rsa_verify (h : hashobj) (signature : bytes)
| Call_sign_hmac (data : bytes)
| Call_ct_bytes_compare (a b : bytes)
| Call_extension_verify (secret data signature : bytes).

(** A computation yields the events it performed and then either a value
    or the exception that ended it. *)
Definition M (A : Type) : Type := list event * result A.

Definition ret {A} (a : A) : M A := ([], Ok a).

Definition bind {A B} (m : M A) (f : A → M B) : M B :=
  match m with
  | (l, Ok a) => let '(l', r) := f a in (l ++ l', r)
  | (l, Err e) => (l, Err e)
  end.

Definition raise {A} (e : exn) : M A := ([], Err e).
Definition emit (ev : event) : M unit := ([ev], Ok tt).
Definition lift {A} (r : result A) : M A := ([], r).

(** A call into a collaborator: recorded, then its outcome. *)
Definition call {A} (ev : event) (r : result A) : M A := ([ev], r).

#[global] Instance M_ret : MRet M := @ret.
#[global] Instance M_bind : MBind M := fun A B f m => bind m f.

Definition events {A} (m : M A) : list event := m.1.
Definition outcome {A} (m : M A) : result A := m.2.

(** ** The header container *)

(** Modelled from the spec: [CaseInsensitiveDict] of [utils.py], which is
    not part of the sources at hand.  Per sections 2 and 9 it is a mapping
    whose keys are normalised to lower case on insertion and on lookup. *)
Abbreviation CaseInsensitiveDict := (gmap string string).

Module CID.

(** [CaseInsensitiveDict(d)] for a dict [d] given by its items in
    insertion order. *)
Definition of_items (items : list (string * string)) : CaseInsensitiveDict :=
  fold_left (fun m kv => <[PyStr.lower kv.1 := kv.2]> m) items ∅.

(** [d[key]] *)
Definition getitem (d : CaseInsensitiveDict) (key : string) : result string :=
  match d !! PyStr.lower key with
  | Some v => Ok v
  | None => Err (KeyError (PyStr.lower key))
  end.

(** [d.get(key, dflt)] *)
Definition get (d : CaseInsensitiveDict) (key dflt : string) : string :=
  default dflt (d !! PyStr.lower key).

End CID.

(** A component of the tuple that [parse_authorization_header] returns. *)
Inductive pyval :=
| PStr (s : string)
| PDict (d : CaseInsensitiveDict).

(** ** Algorithm implementations and the [Verifier] object *)

(** The interface [SignAlgorithm] of [sign_algorithms.py]: the only method
    [verify.py] calls is [verify(secret, data, signature)]. *)
Record SignAlgorithm := {
  sa_label : string;
  sa_verify : bytes → bytes → bytes → result bool
}.

(** The values [self.sign_algorithm] is tested against in [_verify]: a
    string, an instance of [SignAlgorithm], or anything else ([None]). *)
Inductive sa_value :=
| SaStr (s : string)
| SaImpl (impl : SignAlgorithm)
| SaNone.

(** [x == 'lit'] for such a value. *)
Definition sa_eq_str (x : sa_value) (lit : string) : bool :=
  match x with
  | SaStr s => String.eqb s lit
  | _ => false
  end.

(** The attributes of a [Signer]/[Verifier] that [_verify] reads; they are
    established by [Signer.__init__]. *)
Record Verifier := {
  secret : bytes;
  sign_algorithm : sa_value;
  hash_algorithm : string;
  _hash : option string;
  _rsa : option (hashobj → bytes → result bool)
}.

(** ** The constant-time comparison *)

Module CtCompare.

Definition xor_byte (x y : byte) : N := N.lxor (Byte.to_N x) (Byte.to_N y).

Fixpoint accumulate (a b : bytes) (acc : N) (visited : nat) : N * nat :=
  match a, b with
  | x :: a', y :: b' => accumulate a' b' (N.lor acc (xor_byte x y)) (S visited)
  | _, _ => (acc, visited)
  end.

(** One run of the comparison: its answer and the number of byte pairs it
    visited. *)
Definition run (a b : bytes) : bool * nat :=
  if Nat.eqb (length a) (length b)
  then let '(acc, visited) := accumulate a b 0%N 0 in (N.eqb acc 0, visited)
  else (false, 0).

(** Modelled from the spec: [ct_bytes_compare] of [utils.py], which is not
    part of the sources at hand.  Section 4.3: a constant-time equality
    check, fixed-time over the full length of both operands, never
    short-circuiting on the first mismatch; a length mismatch is handled
    without timing that depends on a position.  The model folds the XOR of
    every pair of bytes into one accumulator ([accumulate]) and answers by
    the accumulator alone. *)
Definition ct_bytes_compare (a b : bytes) : bool := (run a b).1.

(** Number of byte pairs the comparison visits. *)
Definition cost (a b : bytes) : nat := (run a b).2.

End CtCompare.

(** ** The collaborators *)

Class Externals := {
  (** [DEFAULT_ALGORITHM] of [sign.py], the generic scheme tag. *)
  DEFAULT_ALGORITHM : string;
  (** [parse_authorization_header] of [utils.py]: a tuple. *)
  parse_authorization_header : string → result (list pyval);
  (** [parse_signature_header] of [utils.py]: the parameter dict. *)
  parse_signature_header : string → result CaseInsensitiveDict;
  (** [Signer.__init__(secret, algorithm, sign_algorithm)] of [sign.py]. *)
  Signer_init : pydata → string → option SignAlgorithm → result Verifier;
  (** [generate_message(required_headers, headers, host, method, path)]. *)
  generate_message :
    list string → CaseInsensitiveDict →
    option string → option string → option string → result pydata;
  (** [base64.b64decode] *)
  b64decode : bytes → result bytes;
  (** The keyed digest: digest name, key, message. *)
  hmac_digest : string → bytes → bytes → bytes;
  (** The order in which [set(a) - set(b)] is iterated, for the lists [a]
      and [b] the two sets are built from.  Python leaves it unspecified;
      in CPython it depends on the hashes of the process and on the order
      of insertion, so the same elements inserted in another order may
      come out in another order.  Only the elements are known. *)
  set_iter : list string → list string → list string;
  set_iter_perm :
    ∀ a b, set_iter a b
           ≡ₚ elements (list_to_set a ∖ list_to_set b : gset string)
}.

(** ** class Verifier *)

Section Verify.

Context {E : Externals}.

(** [x.encode("ascii")] when [x] is a [str], [x] itself otherwise. *)
Definition as_bytes (x : pydata) : result bytes :=
  match x with
  | Str s => PyStr.encode_ascii s
  | Bytes b => Ok b
  end.

(** Reading an attribute that [Signer.__init__] may have left at [None]
    and calling a method on it. *)
Definition attr {A} (name : string) (o : option A) : result A :=
  match o with
  | Some a => Ok a
  | None => Err (AttributeError name)
  end.

(** Modelled from the spec: [Signer._sign_hmac] of [sign.py], which is
    not part of the sources at hand.  Section 4.3: the keyed digest of
    the data, with the secret as the shared key and the digest selected
    by the tag. *)
Definition _sign_hmac (self : Verifier) (data : bytes) : result bytes :=
  Ok (hmac_digest (hash_algorithm self) (secret self) data).

(** [Verifier._verify(self, data, signature)] *)
Definition _verify (self : Verifier) (data signature : pydata) : M bool :=
  data ← lift (as_bytes data);
  signature ← lift (as_bytes signature);
  if sa_eq_str (sign_algorithm self) "rsa" then
    hm ← lift (attr "new" (_hash self));
    let h := {| hash_module := hm; hash_input := data |} in
    rsa ← lift (attr "verify" (_rsa self));
    s ← call (Call_b64decode signature) (b64decode signature);
    call (Call_rsa_verify h s) (rsa h s)
  else if sa_eq_str (sign_algorithm self) "hmac" then
    h ← call (Call_sign_hmac data) (_sign_hmac self data);
    s ← call (Call_b64decode signature) (b64decode signature);
    call (Call_ct_bytes_compare h s) (Ok (CtCompare.ct_bytes_compare h s))
  else
    match sign_algorithm self with
    | SaImpl impl =>
        call (Call_extension_verify (secret self) data signature)
             (sa_verify impl (secret self) data signature)
    | _ => raise (HttpSigException "Unsupported algorithm.")
    end.

(** ** class HeaderVerifier *)

Record HeaderVerifier := {
  base : Verifier;
  headers : CaseInsensitiveDict;
  auth_dict : CaseInsensitiveDict;
  required_headers : list string;
  method : option string;
  path : option string;
  host : option string
}.

(** [required_headers or ['date']] *)
Definition or_default (required : option (list string)) : list string :=
  match required with
  | None | Some [] => ["date"]
  | Some l => l
  end.

Definition deprecated_msg (algorithm : string) : string :=
  "Algorithm: " +:+ algorithm +:+ " is deprecated please update to "
  +:+ DEFAULT_ALGORITHM.

Definition not_set_msg : string :=
  "Required sign algorithm for " +:+ DEFAULT_ALGORITHM
  +:+ " algorithm not set".

(** Lines 79-86: the parameters taken from the signature-bearing
    header. *)
Definition read_auth (hdrs : CaseInsensitiveDict) (sign_header : string)
  : M pyval :=
  if String.eqb (PyStr.lower sign_header) "authorization" then
    v ← lift (CID.getitem hdrs "authorization");
    auth ← call (Call_parse_authorization_header v)
                (parse_authorization_header v);
    match auth with
    | [_; params] => ret params
    | _ => raise (HttpSigException "Invalid authorization header.")
    end
  else
    v ← lift (CID.getitem hdrs sign_header);
    d ← call (Call_parse_signature_header v) (parse_signature_header v);
    ret (PDict d).

(** Lines 93-96: the advisory for a legacy tag, the refusal of the
    generic tag without an implementation. *)
Definition check_algorithm (algorithm : string)
    (sign_algorithm : option SignAlgorithm) : M unit :=
  if negb (String.eqb algorithm DEFAULT_ALGORITHM) then
    emit (Print (deprecated_msg algorithm))
  else if String.eqb algorithm DEFAULT_ALGORITHM
          && bool_decide (sign_algorithm = None) then
    raise (HttpSigException not_set_msg)
  else ret tt.

(** [HeaderVerifier.__init__] *)
Definition HeaderVerifier_init
    (headers : list (string * string)) (secret : pydata)
    (required_headers : option (list string))
    (method path host : option string)
    (sign_header : string) (sign_algorithm : option SignAlgorithm)
  : M HeaderVerifier :=
  let required_headers := or_default required_headers in
  let hdrs := CID.of_items headers in
  auth ← read_auth hdrs sign_header;
  let required := map PyStr.lower required_headers in
  match auth with
  | PStr _ => raise (TypeError "string indices must be integers")
  | PDict d =>
      algorithm ← lift (CID.getitem d "algorithm");
      check_algorithm algorithm sign_algorithm;;
      b ← call (Call_Signer_init algorithm
                  (bool_decide (sign_algorithm ≠ None)))
               (Signer_init secret algorithm sign_algorithm);
      ret {| base := b; headers := hdrs; auth_dict := d;
             required_headers := required;
             method := method; path := path; host := host |}
  end.

(** [self.auth_dict.get('headers', 'date').split(' ')] *)
Definition auth_headers (self : HeaderVerifier) : list string :=
  PyStr.split_space (CID.get (auth_dict self) "headers" "date").

(** [set(self.required_headers) - set(auth_headers)] *)
Definition missing_headers (self : HeaderVerifier) : gset string :=
  list_to_set (required_headers self) ∖ list_to_set (auth_headers self).

Definition required_msg (self : HeaderVerifier) : string :=
  PyStr.join ", " (set_iter (required_headers self) (auth_headers self))
  +:+ " is a required header(s)".

(** [HeaderVerifier.verify] *)
Definition verify (self : HeaderVerifier) : M bool :=
  let auth_headers := auth_headers self in
  if (0 <? size (missing_headers self))%nat then
    raise (Exception (required_msg self))
  else
    signing_str ← call (Call_generate_message auth_headers)
      (generate_message auth_headers (headers self)
         (host self) (method self) (path self));
    signature ← lift (CID.getitem (auth_dict self) "signature");
    _verify (base self) signing_str (Str signature).

End Verify.

(** ** The parser of the Authorization header *)

(** [value.split(' ', 1)]: the scheme token and what follows the first
    space, when there is one. *)
Fixpoint cut_scheme (value : string) : option (string * string) :=
  match value with
  | EmptyString => None
  | String c rest =>
      if PyStr.is_space c then Some (EmptyString, rest)
      else match cut_scheme rest with
           | Some (scheme, params) => Some (String c scheme, params)
           | None => None
           end
  end.

(** Modelled from the spec: [parse_authorization_header] of [utils.py],
    which is not part of the sources at hand.  Section 4.1: the parser
    strips the scheme token and parses the remainder with the key/value
    grammar [parse_params]; section 9: the scheme token is not validated.
    The result is the pair of the scheme and the parameter set, which the
    constructor unpacks (lines 81-82).  A value that ends with its first
    token has no remainder, hence no parameter: what it lacks shows as the
    missing mandatory [algorithm] (section 7). *)
Definition parse_authorization_header_spec
    (parse_params : string → result CaseInsensitiveDict)
    (value : string) : result (list pyval) :=
  match cut_scheme value with
  | Some (scheme, params) =>
      match parse_params params with
      | Ok d => Ok [PStr scheme; PDict d]
      | Err e => Err e
      end
  | None => Ok [PStr value; PDict ∅]
  end.

(** ** A concrete choice of collaborators, to run the embedding *)

Module Sample.

Definition byte_of (n : N) : byte := default x00 (Byte.of_N (n mod 256)).

(** *** base64, standard alphabet (RFC 4648), canonical input *)

Definition b64_value (c : byte) : option N :=
  let n := Byte.to_N c in
  if ((65 <=? n) && (n <=? 90))%N then Some (n - 65)%N
  else if ((97 <=? n) && (n <=? 122))%N then Some (n - 71)%N
  else if ((48 <=? n) && (n <=? 57))%N then Some (n + 4)%N
  else if (n =? 43)%N then Some 62%N
  else if (n =? 47)%N then Some 63%N
  else None.

Definition is_pad (c : byte) : bool := (Byte.to_N c =? 61)%N.

Definition quad (a b c d : N) : bytes :=
  let w := (a * 262144 + b * 4096 + c * 64 + d)%N in
  [byte_of (w / 65536); byte_of (w / 256); byte_of w].

Fixpoint b64decode_rfc4648 (l : bytes) : result bytes :=
  match l with
  | [] => Ok []
  | a :: b :: c :: d :: rest =>
      match b64_value a, b64_value b with
      | Some va, Some vb =>
          match b64_value c, b64_value d, rest with
          | Some vc, Some vd, _ =>
              match b64decode_rfc4648 rest with
              | Ok tl => Ok (quad va vb vc vd ++ tl)
              | Err e => Err e
              end
          | Some vc, None, [] =>
              if is_pad d then Ok (take 2 (quad va vb vc 0))
              else Err (BinasciiError "Invalid character")
          | None, None, [] =>
              if is_pad c && is_pad d then Ok (take 1 (quad va vb 0 0))
              else Err (BinasciiError "Invalid character")
          | _, _, _ => Err (BinasciiError "Invalid character")
          end
      | _, _ => Err (BinasciiError "Invalid character")
      end
  | _ => Err (BinasciiError "Incorrect padding")
  end.

(** *** the key/value grammar of the signature parameters *)

Fixpoint split_char (sep : ascii) (s : string) : list string :=
  match s with
  | EmptyString => [EmptyString]
  | String c s' =>
      if Ascii.eqb c sep then EmptyString :: split_char sep s'
      else match split_char sep s' with
           | w :: ws => String c w :: ws
           | [] => [String c EmptyString]
           end
  end.

Fixpoint lstrip (s : string) : string :=
  match s with
  | String c s' => if PyStr.is_space c then lstrip s' else s
  | EmptyString => EmptyString
  end.

Definition strip (s : string) : string :=
  String.rev (lstrip (String.rev (lstrip s))).

(** [key=value] cut at the first [=]. *)
Fixpoint cut_eq (s : string) : option (string * string) :=
  match s with
  | EmptyString => None
  | String c s' =>
      if Ascii.eqb c "=" then Some (EmptyString, s')
      else match cut_eq s' with
           | Some (k, v) => Some (String c k, v)
           | None => None
           end
  end.

Definition dquote : ascii := ascii_of_N 34.

Definition unquote (v : string) : result string :=
  match v with
  | String c v' =>
      if Ascii.eqb c dquote then
        match String.rev v' with
        | String q inner =>
            if Ascii.eqb q dquote then Ok (String.rev inner)
            else Err (ValueError "unbalanced quoting")
        | EmptyString => Err (ValueError "unbalanced quoting")
        end
      else Ok v
  | EmptyString => Ok v
  end.

Fixpoint parse_items (items : list string) (acc : CaseInsensitiveDict)
  : result CaseInsensitiveDict :=
  match items with
  | [] => Ok acc
  | item :: rest =>
      match cut_eq item with
      | Some (k, v) =>
          match unquote (strip v) with
          | Ok v' => parse_items rest (<[PyStr.lower (strip k) := v']> acc)
          | Err e => Err e
          end
      | None => parse_items rest acc
      end
  end.

Definition parse_params (s : string) : result CaseInsensitiveDict :=
  parse_items (split_char "," s) ∅.

(** *** a keyed checksum standing in for the keyed digest *)

Definition sum_bytes (l : bytes) : N :=
  fold_right (fun b acc => (Byte.to_N b + acc)%N) 0%N l.

Definition keyed_checksum (name : string) (key data : bytes) : bytes :=
  [byte_of (sum_bytes key + sum_bytes (PyStr.to_bytes name));
   byte_of (sum_bytes data);
   byte_of (N.of_nat (length data))].

(** *** the canonical string *)

Definition line (hdrs : CaseInsensitiveDict)
    (host method path : option string) (name : string) : result string :=
  if String.eqb name "(request-target)" then
    match method, path with
    | Some m, Some p =>
        Ok ("(request-target): " +:+ PyStr.lower m +:+ " " +:+ p)
    | _, _ => Err (Exception "method and path arguments required")
    end
  else
    match hdrs !! PyStr.lower name, host with
    | Some v, _ => Ok (PyStr.lower name +:+ ": " +:+ v)
    | None, Some h =>
        if String.eqb (PyStr.lower name) "host"
        then Ok ("host: " +:+ h)
        else Err (Exception ("missing required header " +:+ name))
    | None, None => Err (Exception ("missing required header " +:+ name))
    end.

Fixpoint lines (hdrs : CaseInsensitiveDict)
    (host method path : option string) (names : list string)
  : result (list string) :=
  match names with
  | [] => Ok []
  | n :: rest =>
      match line hdrs host method path n,
            lines hdrs host method path rest with
      | Ok l, Ok ls => Ok (l :: ls)
      | Err e, _ => Err e
      | _, Err e => Err e
      end
  end.

Definition newline : string := String (ascii_of_N 10) EmptyString.

(** Modelled from the spec: [generate_message] of [utils.py], which is not
    part of the sources at hand.  Section 4.2: one line per name, in
    order; the pseudo-header renders the lower-cased method and the path;
    [host] falls back on the caller's value; the lines are joined by a
    newline. *)
Definition canonical_string (names : list string)
    (hdrs : CaseInsensitiveDict) (host method path : option string)
  : result pydata :=
  match lines hdrs host method path names with
  | Ok ls => Ok (Str (PyStr.join newline ls))
  | Err e => Err e
  end.

(** *** the base constructor

    A tag [family-digest] selects the built-in family; any other tag binds
    the implementation the caller supplied, if any. *)

(** A stand-in for the public-key predicate: a signature passes when it
    is as long as the hashed input. *)
Definition rsa_check (h : hashobj) (signature : bytes) : result bool :=
  Ok (Nat.eqb (length signature) (length (hash_input h))).

Definition setup (key : bytes) (algorithm : string)
    (sign_algorithm : option SignAlgorithm) : Verifier :=
  match split_char "-" algorithm, sign_algorithm with
  | [family; digest], _ =>
      {| secret := key; sign_algorithm := SaStr family;
         hash_algorithm := digest; _hash := Some digest;
         _rsa := if String.eqb family "rsa" then Some rsa_check else None |}
  | _, Some impl =>
      {| secret := key; sign_algorithm := SaImpl impl;
         hash_algorithm := ""; _hash := None; _rsa := None |}
  | _, None =>
      {| secret := key; sign_algorithm := SaNone;
         hash_algorithm := ""; _hash := None; _rsa := None |}
  end.

Definition signer_init (secret : pydata) (algorithm : string)
    (sign_algorithm : option SignAlgorithm) : result Verifier :=
  match secret with
  | Str s =>
      match PyStr.encode_ascii s with
      | Ok key => Ok (setup key algorithm sign_algorithm)
      | Err e => Err e
      end
  | Bytes key => Ok (setup key algorithm sign_algorithm)
  end.

(** *** the iteration of a set difference

    The elements of [a] that are not in [b], each once, in the order of
    [a] (a repeated element at its last place). *)
Definition insertion_order (a b : list string) : list string :=
  list_difference (remove_dups a) b.

#[export] Instance externals : Externals := {|
  DEFAULT_ALGORITHM := "hs2019";
  parse_authorization_header :=
    parse_authorization_header_spec parse_params;
  parse_signature_header := parse_params;
  Signer_init := signer_init;
  generate_message := canonical_string;
  b64decode := b64decode_rfc4648;
  hmac_digest := keyed_checksum;
  set_iter := insertion_order;
  set_iter_perm := ltac:(
    intros a b; apply NoDup_Permutation;
    [ apply NoDup_list_difference, NoDup_remove_dups
    | apply NoDup_elements
    | intros x; unfold insertion_order;
      rewrite list_elem_of_difference, elem_of_remove_dups,
        elem_of_elements, elem_of_difference, !elem_of_list_to_set;
      reflexivity ])
|}.

(** *** sample objects *)

Definition date_header : list (string * string) :=
  [("Date", "Tue, 07 Jun 2014 20:51:35 GMT")].

(** A [HeaderVerifier] as the constructor leaves it, for the given
    signature parameters, policy and base object. *)
Definition header_verifier (b : Verifier)
    (params : list (string * string)) (required : list string)
  : HeaderVerifier :=
  {| base := b; headers := CID.of_items date_header;
     auth_dict := CID.of_items params; required_headers := required;
     method := None; path := None; host := None |}.

Definition hmac_base : Verifier :=
  setup (PyStr.to_bytes "secret") "hmac-sha256" None.

Definition rsa_base : Verifier :=
  setup (PyStr.to_bytes "public key") "rsa-sha256" None.

(** An extension whose signatures are three bytes long. *)
Definition fixed_signature : SignAlgorithm :=
  {| sa_label := "fixed";
     sa_verify := fun _ _ signature => Ok (Nat.eqb (length signature) 3) |}.

Definition extension_base : Verifier :=
  setup (PyStr.to_bytes "secret") "hs2019" (Some fixed_signature).

Definition unknown_base : Verifier :=
  setup (PyStr.to_bytes "secret") "hs2019" None.

(** Section 8: the policy {date, digest} against a signature that
    covers only [date]. *)
Definition hv_digest_unsigned : HeaderVerifier :=
  header_verifier hmac_base
    [("keyId", "k"); ("algorithm", "hmac-sha256");
     ("headers", "date"); ("signature", "X9kj")]
    ["date"; "digest"].

Definition signed_params (signature : string) : list (string * string) :=
  [("keyId", "k"); ("algorithm", "hmac-sha256");
   ("headers", "date"); ("signature", signature)].

(** Section 8, end to end: the signature of the [date] line under the
    shared secret, and the same request with another signature. *)
Definition hv_signed : HeaderVerifier :=
  header_verifier hmac_base (signed_params "X9kj") ["date"].

Definition hv_tampered : HeaderVerifier :=
  header_verifier hmac_base (signed_params "X9kk") ["date"].

(** A verifier bound to the extension, for the signature whose base64
    text is [AAEC] and whose bytes are 0, 1, 2. *)
Definition hv_extension : HeaderVerifier :=
  header_verifier extension_base
    [("keyId", "k"); ("algorithm", "hs2019");
     ("headers", "date"); ("signature", "AAEC")]
    ["date"].

(** A signature-bearing header without the [headers] field. *)
Definition hv_no_headers_field : HeaderVerifier :=
  header_verifier hmac_base
    [("keyId", "k"); ("algorithm", "hmac-sha256"); ("signature", "X9kj")]
    ["date"].

(** *** sample requests, as the constructor receives them *)

Definition quoted (s : string) : string :=
  String dquote s +:+ String dquote "".

Definition signature_params (algorithm names signature : string)
  : string :=
  "keyId=" +:+ quoted "k" +:+ ", algorithm=" +:+ quoted algorithm
  +:+ ", headers=" +:+ quoted names
  +:+ ", signature=" +:+ quoted signature.

Definition request (value : string) : list (string * string) :=
  date_header ++ [("Authorization", value)].

(** The constructor's call for a request, a policy and an optional
    implementation, with the defaults of the other arguments. *)
Definition construct (value : string) (required : option (list string))
    (sa : option SignAlgorithm) : M HeaderVerifier :=
  HeaderVerifier_init (E := externals) (request value) (Str "secret")
    required None None None "authorization" sa.

Definition unset : HeaderVerifier :=
  header_verifier unknown_base [] [].

(** The object a run of the constructor returned. *)
Definition built (m : M HeaderVerifier) : HeaderVerifier :=
  match outcome m with
  | Ok self => self
  | Err _ => unset
  end.

Definition parsed (m : M pyval) : CaseInsensitiveDict :=
  match outcome m with
  | Ok (PDict d) => d
  | _ => ∅
  end.

Definition params_of (r : result CaseInsensitiveDict)
  : CaseInsensitiveDict :=
  match r with
  | Ok d => d
  | Err _ => ∅
  end.

Definition legacy_value : string :=
  "Signature " +:+ signature_params "hmac-sha256" "date" "X9kj".

Definition generic_value : string :=
  "Signature " +:+ signature_params "hs2019" "date" "AAEC".

(** The signature lists [Date], capitalised. *)
Definition capitalised_value : string :=
  "Signature " +:+ signature_params "hmac-sha256" "Date" "X9kj".

(** The signature covers [digest] only. *)
Definition digest_only_value : string :=
  "Signature " +:+ signature_params "hmac-sha256" "digest" "X9kj".



(** *** further sample objects *)

(** The parameters of a signature-bearing header that carries no
    [signature] field. *)
Definition hv_no_signature_field : HeaderVerifier :=
  header_verifier hmac_base
    [("keyId", "k"); ("algorithm", "hmac-sha256"); ("headers", "date")]
    ["date"].

(** A signature over [digest], for a request that has no such header. *)
Definition hv_digest_signed : HeaderVerifier :=
  header_verifier hmac_base
    [("keyId", "k"); ("algorithm", "hmac-sha256");
     ("headers", "digest"); ("signature", "X9kj")]
    ["digest"].

(** The [headers] parameter with a doubled space. *)
Definition hv_doubled_space : HeaderVerifier :=
  header_verifier hmac_base
    [("keyId", "k"); ("algorithm", "hmac-sha256");
     ("headers", "date  digest"); ("signature", "X9kj")]
    ["date"].

(** A signature over [host] alone against the policy {date, digest}, and
    the same with the policy listed in another order and with a
    repetition. *)
Definition hv_host_signed : HeaderVerifier :=
  header_verifier hmac_base
    [("keyId", "k"); ("algorithm", "hmac-sha256");
     ("headers", "host"); ("signature", "X9kj")]
    ["date"; "digest"].

Definition hv_host_signed_reordered : HeaderVerifier :=
  header_verifier hmac_base
    [("keyId", "k"); ("algorithm", "hmac-sha256");
     ("headers", "host"); ("signature", "X9kj")]
    ["digest"; "date"; "date"].

(** A request whose parameters travel in a [Signature] header, without a
    scheme token. *)
Definition signature_header_request : list (string * string) :=
  date_header
  ++ [("Signature", signature_params "hmac-sha256" "date" "X9kj")].

(** A text of one character outside ASCII, U+00E9. *)
Definition e_acute : string := String (ascii_of_N 233) "".

(** Parameters that name no algorithm. *)
Definition no_algorithm_value : string := "Signature keyId=k,signature=X9kj".

End Sample.

(** ** Observations on a run *)

(** The number of spaces of a text. *)
Fixpoint count_spaces (s : string) : nat :=
  match s with
  | EmptyString => 0
  | String c s' => (if PyStr.is_space c then 1 else 0) + count_spaces s'
  end.

(** The events that call a collaborator of the dispatch. *)
Definition is_dispatch_event (ev : event) : bool :=
  match ev with
  | Call_b64decode _ | Call_rsa_verify _ _ | Call_sign_hmac _
  | Call_ct_bytes_compare _ _ | Call_extension_verify _ _ _ => true
  | _ => false
  end.

(** The events that the reading of the signature-bearing header
    performs. *)
Definition is_parse_event (ev : event) : bool :=
  match ev with
  | Call_parse_authorization_header _ | Call_parse_signature_header _ => true
  | _ => false
  end.

(** The signature an event hands to a verification primitive. *)
Definition handed_signature (ev : event) : option bytes :=
  match ev with
  | Call_rsa_verify _ s => Some s
  | Call_ct_bytes_compare _ s => Some s
  | Call_extension_verify _ _ s => Some s
  | _ => None
  end.





(** The property of a verification that every signature handed to a
    primitive is the base64 decoding of the [signature] parameter. *)
Definition hands_decoded_signature {E : Externals} (self : HeaderVerifier)
  : Prop :=
  ∀ ev s, ev ∈ events (verify self) → handed_signature ev = Some s →
    ∃ sig raw, auth_dict self !! "signature" = Some sig
               ∧ PyStr.encode_ascii sig = Ok raw
               ∧ b64decode raw = Ok s.

Definition is_extension (v : Verifier) : bool :=
  match sign_algorithm v with
  | SaImpl _ => true
  | _ => false
  end.

Ltac run_monad :=
  unfold mbind, M_bind, mret, M_ret, bind, call, lift, emit, raise, ret
    in *.

(** Case analysis on the membership of an event in an explicit list. *)
Ltac handed_cases H :=
  repeat (apply elem_of_cons in H as [->|H]);
  simpl in *; try congruence; by apply elem_of_nil in H.

(** * Properties *)

(** ** Text *)

Module PyStrFacts.
Import PyStr.

Lemma lower_char_not_upper c : is_upper (lower_char c) = false.
Proof.
  destruct c as [[] [] [] [] [] [] [] []]; vm_compute; reflexivity.
Qed.

Lemma has_upper_lower s : has_upper (lower s) = false.
Proof.
  induction s as [|c s IH]; simpl; [done|].
  by rewrite lower_char_not_upper, IH.
Qed.

Lemma lower_fixes s : has_upper s = false → lower s = s.
Proof.
  induction s as [|c s IH]; simpl; [done|].
  intros [Hc Hs]%orb_false_iff.
  unfold lower_char. by rewrite Hc, IH.
Qed.

Lemma lower_idempotent s : lower (lower s) = lower s.
Proof. apply lower_fixes, has_upper_lower. Qed.

(** A name with a capital is never the lower-cased form of a name. *)
Lemma upper_ne_lower e r : has_upper e = true → e ≠ lower r.
Proof.
  intros He ->. by rewrite has_upper_lower in He.
Qed.

Lemma split_space_nonempty s : split_space s ≠ [].
Proof.
  destruct s as [|c s]; simpl; [done|].
  destruct (is_space c); [done|]. by destruct (split_space s).
Qed.

Lemma is_space_eq c : is_space c = true → c = " "%char.
Proof.
  unfold is_space, code. intros H%N.eqb_eq.
  rewrite <- (ascii_N_embedding c), H. reflexivity.
Qed.

(** Splitting loses nothing: the pieces joined by one space give the
    text back. *)
Lemma join_split_space s : join " " (split_space s) = s.
Proof.
  induction s as [|c s IH]; simpl; [done|].
  destruct (is_space c) eqn:Hc.
  - apply is_space_eq in Hc as ->.
    pose proof (split_space_nonempty s) as Hne.
    destruct (split_space s) as [|w ws]; [done|].
    simpl in *. by rewrite IH.
  - pose proof (split_space_nonempty s) as Hne.
    destruct (split_space s) as [|w ws]; [done|].
    destruct ws as [|w' ws]; simpl in *; by rewrite <- IH.
Qed.

(** No piece holds a space. *)
Lemma split_space_pieces s :
  Forall (λ w, has_space w = false) (split_space s).
Proof.
  induction s as [|c s IH]; simpl.
  - by repeat constructor.
  - destruct (is_space c) eqn:Hc.
    + by constructor.
    + destruct (split_space s) as [|w ws].
      * repeat constructor. simpl. by rewrite Hc.
      * inversion_clear IH as [|? ? Hw Hws].
        constructor; [|done]. simpl. by rewrite Hc.
Qed.

End PyStrFacts.

Example split_two : PyStr.split_space "date digest" = ["date"; "digest"].
Proof. reflexivity. Qed.

Example split_double_space : PyStr.split_space "a  b" = ["a"; ""; "b"].
Proof. reflexivity. Qed.

Example split_empty : PyStr.split_space "" = [""].
Proof. reflexivity. Qed.

Example lower_mixed : PyStr.lower "Content-TYPE" = "content-type".
Proof. reflexivity. Qed.

Example encode_rejects_latin1 :
  PyStr.encode_ascii (String (ascii_of_N 233) "") =
  Err (UnicodeEncodeError (String (ascii_of_N 233) "")).
Proof. reflexivity. Qed.

(** ** The required-header policy *)

Section Policy.

Context {E : Externals}.

Lemma elem_of_set_iter (a b : list string) h :
  h ∈ set_iter a b ↔ h ∈ a ∧ h ∉ b.
Proof.
  rewrite (set_iter_perm a b), elem_of_elements, elem_of_difference.
  by rewrite !elem_of_list_to_set.
Qed.

Lemma NoDup_set_iter (a b : list string) : NoDup (set_iter a b).
Proof. rewrite (set_iter_perm a b). apply NoDup_elements. Qed.

Lemma elem_of_missing_headers self h :
  h ∈ missing_headers self ↔
  h ∈ required_headers self ∧ h ∉ auth_headers self.
Proof.
  unfold missing_headers.
  by rewrite elem_of_difference, !elem_of_list_to_set.
Qed.

Lemma policy_test_true self :
  missing_headers self ≠ ∅ → (0 <? size (missing_headers self)) = true.
Proof.
  intros Hne. apply Nat.ltb_lt.
  assert (size (missing_headers self) ≠ 0); [|lia].
  rewrite size_non_empty_iff. by intros ?%leibniz_equiv.
Qed.

Lemma policy_test_false self :
  missing_headers self = ∅ → (0 <? size (missing_headers self)) = false.
Proof. intros ->. by rewrite size_empty. Qed.

Lemma verify_policy_failure self :
  missing_headers self ≠ ∅ →
  verify self = ([], Err (Exception (required_msg self))).
Proof.
  intros Hne. unfold verify. by rewrite policy_test_true.
Qed.

Lemma verify_policy_pass self :
  missing_headers self = ∅ →
  verify self =
    (signing_str ← call (Call_generate_message (auth_headers self))
       (generate_message (auth_headers self) (headers self)
          (host self) (method self) (path self));
     signature ← lift (CID.getitem (auth_dict self) "signature");
     _verify (base self) signing_str (Str signature)).
Proof.
  intros Hnone. unfold verify. by rewrite policy_test_false.
Qed.

(** C1. When some required header is not in the signed-headers list,
    [verify] raises the exception whose message lists exactly the
    missing headers, and it has performed no call by then: neither the
    canonical string was built nor any primitive invoked. *)
Theorem required_headers_enforced_first (self : HeaderVerifier) :
  missing_headers self ≠ ∅ →
  verify self =
    ([], Err (Exception
                (PyStr.join ", "
                   (set_iter (required_headers self) (auth_headers self))
                 +:+ " is a required header(s)")))
  ∧ NoDup (set_iter (required_headers self) (auth_headers self))
  ∧ ∀ h, h ∈ set_iter (required_headers self) (auth_headers self) ↔
         h ∈ required_headers self ∧ h ∉ auth_headers self.
Proof.
  intros Hne. split; [by apply verify_policy_failure|].
  split; [apply NoDup_set_iter|].
  intros h. apply elem_of_set_iter.
Qed.

End Policy.

(** ** The constructor *)

Section Constructor.

Context {E : Externals}.

Lemma getitem_Some (d : CaseInsensitiveDict) key v :
  d !! PyStr.lower key = Some v → CID.getitem d key = Ok v.
Proof. unfold CID.getitem. by intros ->. Qed.

Lemma getitem_None (d : CaseInsensitiveDict) key :
  d !! PyStr.lower key = None →
  CID.getitem d key = Err (KeyError (PyStr.lower key)).
Proof. unfold CID.getitem. by intros ->. Qed.

Lemma getitem_Ok (d : CaseInsensitiveDict) key v :
  CID.getitem d key = Ok v → d !! PyStr.lower key = Some v.
Proof. unfold CID.getitem. destruct (d !! _); congruence. Qed.

(** What a successful construction went through. *)
Lemma init_success hdrs key req m p h sign_header sa l self :
  HeaderVerifier_init hdrs key req m p h sign_header sa = (l, Ok self) →
  ∃ l0 d algorithm b,
    read_auth (CID.of_items hdrs) sign_header = (l0, Ok (PDict d))
    ∧ d !! "algorithm" = Some algorithm
    ∧ Signer_init key algorithm sa = Ok b
    ∧ self = {| base := b; headers := CID.of_items hdrs; auth_dict := d;
                required_headers := map PyStr.lower (or_default req);
                method := m; path := p; host := h |}.
Proof.
  unfold HeaderVerifier_init. run_monad.
  destruct (read_auth _ _) as [l0 [[s|d]|e]]; try congruence.
  destruct (CID.getitem d "algorithm") as [algorithm|e] eqn:Halg;
    [|congruence].
  apply getitem_Ok in Halg.
  destruct (check_algorithm algorithm sa) as [l1 [[]|e]]; [|congruence].
  destruct (Signer_init key algorithm sa) as [b|e] eqn:Hb; [|congruence].
  intros [= <- <-]. by exists l0, d, algorithm, b.
Qed.

Lemma init_required_headers hdrs key req m p h sign_header sa l self :
  HeaderVerifier_init hdrs key req m p h sign_header sa = (l, Ok self) →
  required_headers self = map PyStr.lower (or_default req).
Proof.
  intros (l0 & d & algorithm & b & _ & _ & _ & ->)%init_success. done.
Qed.

Lemma set_iter_singleton (a b : list string) (x : string) :
  (list_to_set a ∖ list_to_set b : gset string) = {[x]} →
  set_iter a b = [x].
Proof.
  intros Hone. apply Permutation_singleton_r.
  by rewrite (set_iter_perm a b), Hone, elements_singleton.
Qed.

(** C6. When the parsed parameters have no [headers] field, the
    signed-headers list is exactly [["date"]]: the policy is checked
    against it and the canonical string is built from it. *)
Theorem headers_default_to_date (self : HeaderVerifier) :
  auth_dict self !! "headers" = None →
  auth_headers self = ["date"]
  ∧ missing_headers self = list_to_set (required_headers self) ∖ {["date"]}
  ∧ (missing_headers self = ∅ →
     verify self =
       (signing_str ← call (Call_generate_message ["date"])
          (generate_message ["date"] (headers self)
             (host self) (method self) (path self));
        signature ← lift (CID.getitem (auth_dict self) "signature");
        _verify (base self) signing_str (Str signature))).
Proof.
  intros Hnone.
  assert (auth_headers self = ["date"]) as Hdate.
  { unfold auth_headers, CID.get.
    change (PyStr.lower "headers") with "headers".
    by rewrite Hnone. }
  split; [done|]. split.
  - unfold missing_headers. rewrite Hdate. simpl.
    by rewrite (right_id_L ∅ (∪)).
  - intros Hpass. rewrite (verify_policy_pass _ Hpass). by rewrite Hdate.
Qed.

(** C10. A policy given as [None] or as the empty list is replaced by
    [['date']]: the verifier so built refuses every signature whose
    signed-headers list lacks [date]. *)
Theorem empty_policy_defaults_to_date
    hdrs key req m p h sign_header sa l (self : HeaderVerifier) :
  req = None ∨ req = Some [] →
  HeaderVerifier_init hdrs key req m p h sign_header sa = (l, Ok self) →
  required_headers self = ["date"]
  ∧ ("date" ∉ auth_headers self →
     verify self = ([], Err (Exception "date is a required header(s)")))
  ∧ (∀ l' b, verify self = (l', Ok b) → "date" ∈ auth_headers self).
Proof.
  intros Hreq Hinit.
  assert (required_headers self = ["date"]) as Hrh.
  { rewrite (init_required_headers _ _ _ _ _ _ _ _ _ _ Hinit).
    by destruct Hreq as [-> | ->]. }
  assert ("date" ∉ auth_headers self →
          verify self = ([], Err (Exception "date is a required header(s)")))
    as Hfail.
  { intros Hnot.
    assert (missing_headers self = {["date"]}) as Hmiss.
    { apply set_eq. intros x.
      rewrite elem_of_missing_headers, Hrh, list_elem_of_singleton,
        elem_of_singleton.
      split; [tauto | by intros ->]. }
    rewrite verify_policy_failure;
      [|rewrite Hmiss; apply non_empty_singleton_L].
    unfold required_msg. by rewrite (set_iter_singleton _ _ "date" Hmiss). }
  split; [done|]. split; [done|].
  intros l' b Hok.
  destruct (decide ("date" ∈ auth_headers self)) as [|Hnot]; [done|].
  rewrite (Hfail Hnot) in Hok. congruence.
Qed.

(** C9. The constructor stores the required names lower-cased; [verify]
    takes the signed names as the pieces of the [headers] parameter
    between single spaces, as they are.  A signed name with a capital
    letter therefore equals no required name, and a required name that
    the signature lists only in such spellings is reported missing. *)
Theorem signed_names_not_case_folded
    hdrs key req m p h sign_header sa l (self : HeaderVerifier) :
  HeaderVerifier_init hdrs key req m p h sign_header sa = (l, Ok self) →
  required_headers self = map PyStr.lower (or_default req)
  ∧ auth_headers self
    = PyStr.split_space (default "date" (auth_dict self !! "headers"))
  ∧ PyStr.join " " (auth_headers self)
    = default "date" (auth_dict self !! "headers")
  ∧ Forall (λ w, PyStr.has_space w = false) (auth_headers self)
  ∧ (∀ e r, e ∈ auth_headers self → PyStr.has_upper e = true →
            r ∈ required_headers self → e ≠ r)
  ∧ (∀ r, r ∈ required_headers self →
          (∀ e, e ∈ auth_headers self → PyStr.lower e = r →
                PyStr.has_upper e = true) →
          r ∈ missing_headers self
          ∧ verify self
            = ([], Err (Exception (required_msg self)))).
Proof.
  intros Hinit.
  pose proof (init_required_headers _ _ _ _ _ _ _ _ _ _ Hinit) as Hrh.
  assert (∀ r, r ∈ required_headers self → PyStr.has_upper r = false)
    as Hlow.
  { intros r. rewrite Hrh. intros (r0 & -> & _)%list_elem_of_fmap.
    apply PyStrFacts.has_upper_lower. }
  split; [done|]. split; [done|].
  split; [apply PyStrFacts.join_split_space|].
  split; [apply PyStrFacts.split_space_pieces|].
  split.
  - intros e r _ He Hr ->. apply Hlow in Hr. congruence.
  - intros r Hr Hcap.
    assert (r ∈ missing_headers self) as Hmiss.
    { apply elem_of_missing_headers. split; [done|].
      intros Hin. specialize (Hlow r Hr).
      rewrite (Hcap r Hin (PyStrFacts.lower_fixes r Hlow)) in Hlow.
      done. }
    split; [done|]. apply verify_policy_failure.
    intros Hempty. rewrite Hempty in Hmiss. by apply elem_of_empty in Hmiss.
Qed.

End Constructor.

(** ** Construction-time checks *)





Section Checks.

Context {E : Externals}.




Lemma init_read_auth_failure hdrs key req m p h sign_header sa l e :
  read_auth (CID.of_items hdrs) sign_header = (l, Err e) →
  HeaderVerifier_init hdrs key req m p h sign_header sa = (l, Err e).
Proof.
  intros Hread. unfold HeaderVerifier_init. run_monad. by rewrite Hread.
Qed.

(** C2. With the parameters parsed and their [algorithm] read: the
    generic tag without an implementation ends the construction with the
    exception "Required sign algorithm ... not set", before the base
    constructor is reached; a legacy tag prints the advisory and the
    construction goes on to the base constructor, whose success is the
    constructor's. *)
Theorem generic_tag_requires_implementation
    hdrs key req m p h sign_header sa l0 d algorithm :
  read_auth (CID.of_items hdrs) sign_header = (l0, Ok (PDict d)) →
  d !! "algorithm" = Some algorithm →
  (algorithm = DEFAULT_ALGORITHM → sa = None →
   HeaderVerifier_init hdrs key req m p h sign_header sa =
     (l0, Err (HttpSigException
                 ("Required sign algorithm for " +:+ DEFAULT_ALGORITHM
                  +:+ " algorithm not set"))))
  ∧ (algorithm ≠ DEFAULT_ALGORITHM →
     ∀ b, Signer_init key algorithm sa = Ok b →
     HeaderVerifier_init hdrs key req m p h sign_header sa =
       (l0 ++ [Print ("Algorithm: " +:+ algorithm
                      +:+ " is deprecated please update to "
                      +:+ DEFAULT_ALGORITHM);
               Call_Signer_init algorithm (bool_decide (sa ≠ None))],
        Ok {| base := b; headers := CID.of_items hdrs; auth_dict := d;
              required_headers := map PyStr.lower (or_default req);
              method := m; path := p; host := h |})).
Proof.
  intros Hread Halg.
  pose proof (getitem_Some d "algorithm" algorithm Halg) as Hget.
  split.
  - intros -> ->. unfold HeaderVerifier_init. run_monad.
    rewrite Hread, Hget. unfold check_algorithm.
    rewrite String.eqb_refl. simpl.
    by rewrite app_nil_r.
  - intros Hne b Hb. unfold HeaderVerifier_init. run_monad.
    rewrite Hread, Hget. unfold check_algorithm.
    apply String.eqb_neq in Hne. rewrite Hne. simpl.
    run_monad. by rewrite Hb.
Qed.




End Checks.

(** ** Facts on the constant-time comparison *)

Module CtCompareFacts.
Import CtCompare.

Lemma to_N_inj x y : Byte.to_N x = Byte.to_N y → x = y.
Proof.
  intros H. pose proof (Byte.of_to_N x) as Hx.
  rewrite H, Byte.of_to_N in Hx. congruence.
Qed.

Lemma xor_byte_0 x y : xor_byte x y = 0%N ↔ x = y.
Proof.
  unfold xor_byte. rewrite N.lxor_eq_0_iff.
  split; [apply to_N_inj | by intros ->].
Qed.

(** The accumulator ends at zero exactly when it started at zero and no
    pair differed. *)
Lemma accumulate_zero a b acc visited :
  length a = length b →
  (accumulate a b acc visited).1 = 0%N ↔ acc = 0%N ∧ a = b.
Proof.
  revert b acc visited.
  induction a as [|x a IH]; intros [|y b] acc visited Hlen;
    simpl in *; try discriminate.
  - split; [by intros -> | by intros [-> _]].
  - rewrite IH by lia. rewrite N.lor_eq_0_iff, xor_byte_0.
    split; [by intros [[-> ->] ->] | by intros [-> [= -> ->]]].
Qed.

(** Every pair is visited, whatever the bytes are. *)
Lemma accumulate_visits_all a b acc visited :
  length a = length b →
  (accumulate a b acc visited).2 = visited + length a.
Proof.
  revert b acc visited.
  induction a as [|x a IH]; intros [|y b] acc visited Hlen;
    simpl in *; try discriminate.
  - lia.
  - rewrite IH by lia. lia.
Qed.

Lemma ct_bytes_compare_true a b : ct_bytes_compare a b = true ↔ a = b.
Proof.
  unfold ct_bytes_compare, run.
  destruct (Nat.eqb (length a) (length b)) eqn:Hlen.
  - apply Nat.eqb_eq in Hlen.
    pose proof (accumulate_zero a b 0%N 0 Hlen) as Hz.
    destruct (accumulate a b 0%N 0) as [acc visited]. simpl in *.
    rewrite N.eqb_eq, Hz. split; [by intros [_ ->] | by intros ->].
  - apply Nat.eqb_neq in Hlen. simpl. split; [done|].
    intros ->. done.
Qed.

Lemma cost_lengths a b :
  cost a b = if Nat.eqb (length a) (length b) then length a else 0.
Proof.
  unfold cost, run.
  destruct (Nat.eqb (length a) (length b)) eqn:Hlen; [|done].
  apply Nat.eqb_eq in Hlen.
  pose proof (accumulate_visits_all a b 0%N 0 Hlen) as Hv.
  by destruct (accumulate a b 0%N 0).
Qed.

End CtCompareFacts.

(** ** Dispatch *)

Section Dispatch.

Context {E : Externals}.

Lemma _verify_hmac v data signature d raw s :
  sign_algorithm v = SaStr "hmac" →
  as_bytes data = Ok d → as_bytes signature = Ok raw →
  b64decode raw = Ok s →
  _verify v data signature =
    ([Call_sign_hmac d; Call_b64decode raw;
      Call_ct_bytes_compare
        (hmac_digest (hash_algorithm v) (secret v) d) s],
     Ok (CtCompare.ct_bytes_compare
           (hmac_digest (hash_algorithm v) (secret v) d) s)).
Proof.
  intros Hsa Hd Hraw Hs. unfold _verify, _sign_hmac. run_monad.
  by rewrite Hd, Hraw, Hsa, Hs.
Qed.

Lemma _verify_rsa v data signature d raw s hm rsa :
  sign_algorithm v = SaStr "rsa" →
  _hash v = Some hm → _rsa v = Some rsa →
  as_bytes data = Ok d → as_bytes signature = Ok raw →
  b64decode raw = Ok s →
  _verify v data signature =
    ([Call_b64decode raw;
      Call_rsa_verify {| hash_module := hm; hash_input := d |} s],
     rsa {| hash_module := hm; hash_input := d |} s).
Proof.
  intros Hsa Hhm Hrsa Hd Hraw Hs. unfold _verify. run_monad.
  by rewrite Hd, Hraw, Hsa, Hhm, Hrsa, Hs.
Qed.

Lemma _verify_extension v data signature d raw impl :
  sign_algorithm v = SaImpl impl →
  as_bytes data = Ok d → as_bytes signature = Ok raw →
  _verify v data signature =
    ([Call_extension_verify (secret v) d raw],
     sa_verify impl (secret v) d raw).
Proof.
  intros Hsa Hd Hraw. unfold _verify. run_monad.
  by rewrite Hd, Hraw, Hsa.
Qed.

Lemma _verify_encoding_failure v data signature l r :
  _verify v data signature = (l, r) →
  (∀ d, as_bytes data ≠ Ok d) ∨ (∀ raw, as_bytes signature ≠ Ok raw) →
  l = [] ∧ ∃ e, r = Err e.
Proof.
  unfold _verify. run_monad.
  destruct (as_bytes data) as [d|e].
  - destruct (as_bytes signature) as [raw|e].
    + intros _ [H|H]; [by destruct (H d) | by destruct (H raw)].
    + intros [= <- <-] _. eauto.
  - intros [= <- <-] _. eauto.
Qed.

(** What [_verify] hands to a primitive: the decoded signature in the
    RSA and HMAC branches, the signature as received in the extension
    branch. *)
Lemma _verify_handed v data signature ev s :
  ev ∈ events (_verify v data signature) →
  handed_signature ev = Some s →
  ∃ raw, as_bytes signature = Ok raw
         ∧ if is_extension v then s = raw else b64decode raw = Ok s.
Proof.
  unfold _verify, events, is_extension, _sign_hmac. run_monad.
  destruct (as_bytes data) as [d|e]; simpl; [|by intros ?%elem_of_nil].
  destruct (as_bytes signature) as [raw|e]; simpl;
    [|by intros ?%elem_of_nil].
  intros Hev Hs. exists raw. split; [done|].
  destruct (sign_algorithm v) as [name|impl|]; simpl in *.
  - destruct (String.eqb name "rsa").
    + destruct (_hash v); simpl in *; [|by apply elem_of_nil in Hev].
      destruct (_rsa v) as [rsa|]; simpl in *;
        [|by apply elem_of_nil in Hev].
      destruct (b64decode raw) as [dec|e]; simpl in *; handed_cases Hev.
    + destruct (String.eqb name "hmac"); simpl in *;
        [|by apply elem_of_nil in Hev].
      destruct (b64decode raw) as [dec|e]; simpl in *; handed_cases Hev.
  - handed_cases Hev.
  - by apply elem_of_nil in Hev.
Qed.

End Dispatch.

Section DispatchClaims.

Context {E : Externals}.

(** The events of [verify] that hand a signature over are events of the
    dispatch on the [signature] parameter. *)
Lemma verify_handed_in_dispatch self ev s :
  ev ∈ events (verify self) → handed_signature ev = Some s →
  ∃ signing_str sig,
    auth_dict self !! "signature" = Some sig
    ∧ ev ∈ events (_verify (base self) signing_str (Str sig)).
Proof.
  unfold verify, events. run_monad.
  destruct (0 <? size (missing_headers self))%nat; simpl;
    [by intros ?%elem_of_nil|].
  destruct (generate_message _ _ _ _ _) as [signing_str|e]; simpl;
    [|intros Hev Hs; handed_cases Hev].
  destruct (CID.getitem (auth_dict self) "signature") as [sig|e] eqn:Hsig;
    simpl; [|intros Hev Hs; handed_cases Hev].
  apply getitem_Ok in Hsig.
  destruct (_verify (base self) signing_str (Str sig)) as [l r] eqn:Hv.
  simpl. intros Hev Hs. exists signing_str, sig. split; [done|].
  rewrite Hv. simpl.
  apply elem_of_cons in Hev as [->|Hev]; [simpl in Hs; congruence|done].
Qed.

(** C3, as the code has it. The signature a primitive receives is the
    base64 decoding of the [signature] parameter in the RSA and HMAC
    branches; the extension's [verify] receives the parameter's ASCII
    bytes, still base64-encoded. *)
Theorem signature_decoded_for_builtin_families
    (self : HeaderVerifier) ev s :
  ev ∈ events (verify self) → handed_signature ev = Some s →
  ∃ sig raw,
    auth_dict self !! "signature" = Some sig
    ∧ PyStr.encode_ascii sig = Ok raw
    ∧ if is_extension (base self) then s = raw
      else b64decode raw = Ok s.
Proof.
  intros Hev Hs.
  destruct (verify_handed_in_dispatch self ev s Hev Hs)
    as (signing_str & sig & Hsig & Hin).
  destruct (_verify_handed _ _ _ ev s Hin Hs) as (raw & Hraw & Hcase).
  by exists sig, raw.
Qed.

(** C4. In the HMAC branch [_verify] computes the keyed digest of the
    data, decodes the signature and compares the two with
    [ct_bytes_compare]; the result is true exactly when they are equal;
    the comparison visits every byte pair of equal-length operands and
    none otherwise, so its cost is a function of the two lengths
    alone. *)
Theorem hmac_compare_constant_time
    (v : Verifier) data signature d raw s :
  sign_algorithm v = SaStr "hmac" →
  as_bytes data = Ok d → as_bytes signature = Ok raw →
  b64decode raw = Ok s →
  let h := hmac_digest (hash_algorithm v) (secret v) d in
  (∃ r, _verify v data signature =
          ([Call_sign_hmac d; Call_b64decode raw;
            Call_ct_bytes_compare h s], Ok r)
        ∧ (r = true ↔ h = s))
  ∧ CtCompare.cost h s
    = (if Nat.eqb (length h) (length s) then length h else 0)
  ∧ (∀ h' s', length h' = length h → length s' = length s →
              CtCompare.cost h' s' = CtCompare.cost h s).
Proof.
  intros Hsa Hd Hraw Hs h. split; [|split].
  - exists (CtCompare.ct_bytes_compare h s). split.
    + by apply _verify_hmac.
    + apply CtCompareFacts.ct_bytes_compare_true.
  - apply CtCompareFacts.cost_lengths.
  - intros h' s' Hh Hs'. rewrite !CtCompareFacts.cost_lengths.
    by rewrite Hh, Hs'.
Qed.

(** C5. When [self.sign_algorithm] is neither ['rsa'] nor ['hmac'] nor an
    instance of [SignAlgorithm], [_verify] never returns a boolean, and
    on data and signature that are bytes or ASCII text it raises the
    exception "Unsupported algorithm." without having invoked
    anything. *)
Theorem unsupported_algorithm_raises (v : Verifier) data signature :
  sa_eq_str (sign_algorithm v) "rsa" = false →
  sa_eq_str (sign_algorithm v) "hmac" = false →
  is_extension v = false →
  (∀ l b, _verify v data signature ≠ (l, Ok b))
  ∧ (∀ d raw, as_bytes data = Ok d → as_bytes signature = Ok raw →
       _verify v data signature
       = ([], Err (HttpSigException "Unsupported algorithm."))).
Proof.
  intros Hrsa Hhmac Hext. unfold is_extension in Hext.
  unfold _verify. run_monad. rewrite Hrsa, Hhmac.
  split.
  - intros l b.
    destruct (as_bytes data); [|congruence].
    destruct (as_bytes signature); [|congruence].
    destruct (sign_algorithm v); simpl; congruence.
  - intros d raw -> ->.
    destruct (sign_algorithm v); simpl; congruence.
Qed.

(** C7. Once the policy holds and the canonical string is built,
    [verify] ends as the dispatch on that string and the [signature]
    parameter ends, with the same boolean or the same exception; a
    digest that differs from the decoded signature, a public-key
    predicate that answers false and an extension that answers false
    all give the plain result [False]. *)
Theorem verify_returns_dispatch_result
    (self : HeaderVerifier) signing_str sig :
  missing_headers self = ∅ →
  generate_message (auth_headers self) (headers self)
    (host self) (method self) (path self) = Ok signing_str →
  auth_dict self !! "signature" = Some sig →
  verify self
  = (Call_generate_message (auth_headers self)
       :: events (_verify (base self) signing_str (Str sig)),
     outcome (_verify (base self) signing_str (Str sig)))
  ∧ (∀ d raw dec,
       as_bytes signing_str = Ok d → PyStr.encode_ascii sig = Ok raw →
       b64decode raw = Ok dec →
       (sign_algorithm (base self) = SaStr "hmac" →
        hmac_digest (hash_algorithm (base self)) (secret (base self)) d
          ≠ dec →
        outcome (verify self) = Ok false)
       ∧ (∀ hm rsa,
            sign_algorithm (base self) = SaStr "rsa" →
            _hash (base self) = Some hm → _rsa (base self) = Some rsa →
            rsa {| hash_module := hm; hash_input := d |} dec = Ok false →
            outcome (verify self) = Ok false))
  ∧ (∀ d raw impl,
       as_bytes signing_str = Ok d → PyStr.encode_ascii sig = Ok raw →
       sign_algorithm (base self) = SaImpl impl →
       sa_verify impl (secret (base self)) d raw = Ok false →
       outcome (verify self) = Ok false).
Proof.
  intros Hpass Hgen Hsig.
  assert (verify self
          = (Call_generate_message (auth_headers self)
               :: events (_verify (base self) signing_str (Str sig)),
             outcome (_verify (base self) signing_str (Str sig)))) as Hv.
  { rewrite (verify_policy_pass _ Hpass). run_monad. rewrite Hgen.
    rewrite (getitem_Some (auth_dict self) "signature" sig Hsig).
    by destruct (_verify (base self) signing_str (Str sig)). }
  split; [done|]. rewrite Hv. unfold outcome at 1 3 5. simpl.
  split.
  - intros d raw dec Hd Hraw Hdec. split.
    + intros Hsa Hne.
      rewrite (_verify_hmac (base self) signing_str (Str sig) d raw dec
                 Hsa Hd Hraw Hdec). simpl.
      f_equal. apply not_true_is_false.
      by rewrite CtCompareFacts.ct_bytes_compare_true.
    + intros hm rsa Hsa Hhm Hrsa Hfalse.
      by rewrite (_verify_rsa (base self) signing_str (Str sig) d raw dec
                    hm rsa Hsa Hhm Hrsa Hd Hraw Hdec).
  - intros d raw impl Hd Hraw Hsa Hfalse.
    by rewrite (_verify_extension (base self) signing_str (Str sig) d raw
                  impl Hsa Hd Hraw).
Qed.

End DispatchClaims.

(** * The theorems at work on sample requests *)

Lemma required_headers_enforced_first_witness :
  verify (E := Sample.externals) Sample.hv_digest_unsigned
  = ([], Err (Exception "digest is a required header(s)")).
Proof.
  assert (missing_headers Sample.hv_digest_unsigned ≠ ∅) as Hne.
  { intros H. apply (f_equal size) in H. vm_compute in H. discriminate. }
  destruct (required_headers_enforced_first (E := Sample.externals) _ Hne)
    as [Hv _].
  rewrite Hv. vm_compute. reflexivity.
Defined.

Lemma headers_default_to_date_witness :
  auth_headers Sample.hv_no_headers_field = ["date"].
Proof.
  assert (auth_dict Sample.hv_no_headers_field !! "headers" = None) as Hnone
    by (vm_compute; reflexivity).
  exact (proj1 (headers_default_to_date (E := Sample.externals) _ Hnone)).
Defined.

Lemma empty_policy_defaults_to_date_witness :
  verify (E := Sample.externals)
    (Sample.built (Sample.construct Sample.digest_only_value (Some []) None))
  = ([], Err (Exception "date is a required header(s)")).
Proof.
  pose (m := Sample.construct Sample.digest_only_value (Some []) None).
  assert (m = (events m, Ok (Sample.built m))) as Hinit
    by (vm_compute; reflexivity).
  destruct (empty_policy_defaults_to_date (E := Sample.externals)
              _ _ (Some []) _ _ _ _ _ _ _ (or_intror eq_refl) Hinit)
    as (_ & Hfail & _).
  apply Hfail. vm_compute. intros Hin.
  apply list_elem_of_singleton in Hin. discriminate.
Defined.

Lemma signed_names_not_case_folded_witness :
  verify (E := Sample.externals)
    (Sample.built
       (Sample.construct Sample.capitalised_value (Some ["Date"]) None))
  = ([], Err (Exception "date is a required header(s)")).
Proof.
  set (m := Sample.construct Sample.capitalised_value (Some ["Date"]) None).
  assert (m = (events m, Ok (Sample.built m))) as Hinit
    by (vm_compute; reflexivity).
  destruct (signed_names_not_case_folded (E := Sample.externals)
              _ _ _ _ _ _ _ _ _ _ Hinit)
    as (_ & _ & _ & _ & _ & Hmissing).
  destruct (Hmissing "date") as [_ Hv].
  - vm_compute. apply list_elem_of_singleton. reflexivity.
  - intros e He _. vm_compute in He.
    apply list_elem_of_singleton in He. subst e. reflexivity.
  - rewrite Hv. vm_compute. reflexivity.
Defined.

Lemma generic_tag_requires_implementation_witness :
  Sample.construct Sample.generic_value None None
  = ([Call_parse_authorization_header Sample.generic_value],
     Err (HttpSigException
            "Required sign algorithm for hs2019 algorithm not set"))
  ∧ ∃ self, outcome (Sample.construct Sample.legacy_value None None)
            = Ok self.
Proof.
  split.
  - pose (r := read_auth (E := Sample.externals)
                 (CID.of_items (Sample.request Sample.generic_value))
                 "authorization").
    assert (r = (events r, Ok (PDict (Sample.parsed r)))) as Hread
      by (vm_compute; reflexivity).
    assert (Sample.parsed r !! "algorithm" = Some "hs2019") as Halg
      by (vm_compute; reflexivity).
    destruct (generic_tag_requires_implementation (E := Sample.externals)
                (Sample.request Sample.generic_value) (Str "secret")
                None None None None "authorization" None
                _ _ _ Hread Halg) as [Hgeneric _].
    unfold Sample.construct. rewrite (Hgeneric eq_refl eq_refl).
    vm_compute. reflexivity.
  - pose (r := read_auth (E := Sample.externals)
                 (CID.of_items (Sample.request Sample.legacy_value))
                 "authorization").
    assert (r = (events r, Ok (PDict (Sample.parsed r)))) as Hread
      by (vm_compute; reflexivity).
    assert (Sample.parsed r !! "algorithm" = Some "hmac-sha256") as Halg
      by (vm_compute; reflexivity).
    destruct (generic_tag_requires_implementation (E := Sample.externals)
                (Sample.request Sample.legacy_value) (Str "secret")
                None None None None "authorization" None
                _ _ _ Hread Halg) as [_ Hlegacy].
    eexists. unfold Sample.construct.
    rewrite (Hlegacy ltac:(discriminate) _ eq_refl). reflexivity.
Defined.



(** The extension bound to [hv_extension] is handed the four ASCII bytes
    of the text [AAEC], whose base64 decoding is the three bytes 0, 1, 2:
    the signature reaches it undecoded. *)
Lemma extension_receives_encoded_signature :
  ¬ hands_decoded_signature (E := Sample.externals) Sample.hv_extension.
Proof.
  intros Hdec.
  destruct (Hdec (Call_extension_verify
                    (PyStr.to_bytes "secret")
                    (PyStr.to_bytes "date: Tue, 07 Jun 2014 20:51:35 GMT")
                    (PyStr.to_bytes "AAEC"))
                 (PyStr.to_bytes "AAEC"))
    as (sig & raw & Hsig & Hraw & Hb64).
  - vm_compute. apply list_elem_of_further, list_elem_of_here.
  - reflexivity.
  - vm_compute in Hsig. injection Hsig as <-.
    vm_compute in Hraw. injection Hraw as <-.
    vm_compute in Hb64. discriminate.
Qed.

Lemma signature_decoded_for_builtin_families_witness :
  ∃ sig raw,
    auth_dict Sample.hv_extension !! "signature" = Some sig
    ∧ PyStr.encode_ascii sig = Ok raw
    ∧ PyStr.to_bytes "AAEC" = raw.
Proof.
  apply (signature_decoded_for_builtin_families (E := Sample.externals)
           Sample.hv_extension
           (Call_extension_verify
              (PyStr.to_bytes "secret")
              (PyStr.to_bytes "date: Tue, 07 Jun 2014 20:51:35 GMT")
              (PyStr.to_bytes "AAEC"))).
  - vm_compute. apply list_elem_of_further, list_elem_of_here.
  - reflexivity.
Defined.

Lemma hmac_compare_constant_time_witness :
  ∃ r, _verify (E := Sample.externals) Sample.hmac_base
         (Str "date: Tue, 07 Jun 2014 20:51:35 GMT") (Str "X9kj")
       = ([Call_sign_hmac
             (PyStr.to_bytes "date: Tue, 07 Jun 2014 20:51:35 GMT");
           Call_b64decode (PyStr.to_bytes "X9kj");
           Call_ct_bytes_compare
             (Sample.keyed_checksum "sha256" (PyStr.to_bytes "secret")
                (PyStr.to_bytes "date: Tue, 07 Jun 2014 20:51:35 GMT"))
             [x5f; xd9; x23]], Ok r)
       ∧ (r = true ↔
          Sample.keyed_checksum "sha256" (PyStr.to_bytes "secret")
            (PyStr.to_bytes "date: Tue, 07 Jun 2014 20:51:35 GMT")
          = [x5f; xd9; x23]).
Proof.
  exact (proj1 (hmac_compare_constant_time (E := Sample.externals)
                  Sample.hmac_base
                  (Str "date: Tue, 07 Jun 2014 20:51:35 GMT") (Str "X9kj")
                  (PyStr.to_bytes "date: Tue, 07 Jun 2014 20:51:35 GMT")
                  (PyStr.to_bytes "X9kj") [x5f; xd9; x23]
                  eq_refl eq_refl eq_refl eq_refl)).
Defined.

Lemma unsupported_algorithm_raises_witness :
  _verify (E := Sample.externals) Sample.unknown_base
    (Str "date: Tue, 07 Jun 2014 20:51:35 GMT") (Str "AAEC")
  = ([], Err (HttpSigException "Unsupported algorithm.")).
Proof.
  exact (proj2 (unsupported_algorithm_raises (E := Sample.externals)
                  Sample.unknown_base
                  (Str "date: Tue, 07 Jun 2014 20:51:35 GMT") (Str "AAEC")
                  eq_refl eq_refl eq_refl)
           (PyStr.to_bytes "date: Tue, 07 Jun 2014 20:51:35 GMT")
           (PyStr.to_bytes "AAEC") eq_refl eq_refl).
Defined.

Lemma verify_returns_dispatch_result_witness :
  outcome (verify (E := Sample.externals) Sample.hv_signed) = Ok true
  ∧ outcome (verify (E := Sample.externals) Sample.hv_tampered) = Ok false.
Proof.
  split.
  - assert (missing_headers Sample.hv_signed = ∅) as Hpass.
    { apply leibniz_equiv, size_empty_inv. vm_compute. reflexivity. }
    destruct (verify_returns_dispatch_result (E := Sample.externals)
                Sample.hv_signed
                (Str "date: Tue, 07 Jun 2014 20:51:35 GMT") "X9kj" Hpass)
      as [Hv _].
    + vm_compute. reflexivity.
    + vm_compute. reflexivity.
    + rewrite Hv. vm_compute. reflexivity.
  - assert (missing_headers Sample.hv_tampered = ∅) as Hpass.
    { apply leibniz_equiv, size_empty_inv. vm_compute. reflexivity. }
    destruct (verify_returns_dispatch_result (E := Sample.externals)
                Sample.hv_tampered
                (Str "date: Tue, 07 Jun 2014 20:51:35 GMT") "X9kk" Hpass)
      as (_ & Hmismatch & _).
    + vm_compute. reflexivity.
    + vm_compute. reflexivity.
    + destruct (Hmismatch
                  (PyStr.to_bytes "date: Tue, 07 Jun 2014 20:51:35 GMT")
                  (PyStr.to_bytes "X9kk") [x5f; xd9; x24])
        as [Hhmac _]; [reflexivity | reflexivity | reflexivity |].
      apply Hhmac; [reflexivity|]. vm_compute. discriminate.
Defined.

(** The RSA branch on the same text: the predicate receives the three
    decoded bytes. *)
Example rsa_branch_decodes :
  events (_verify (E := Sample.externals) Sample.rsa_base
            (Str "abc") (Str "AAEC"))
  = [Call_b64decode (PyStr.to_bytes "AAEC");
     Call_rsa_verify
       {| hash_module := "sha256"; hash_input := PyStr.to_bytes "abc" |}
       [x00; x01; x02]].
Proof. reflexivity. Qed.

(** Text outside ASCII is refused by the encoding, before any dispatch. *)
Example non_ascii_signature_refused :
  _verify (E := Sample.externals) Sample.hmac_base
    (Str "abc") (Str (String (ascii_of_N 233) ""))
  = ([], Err (UnicodeEncodeError (String (ascii_of_N 233) ""))).
Proof. reflexivity. Qed.

(** Section 8, pseudo-header rendering. *)
Example request_target_line :
  Sample.line ∅ (Some "example.org") (Some "GET") (Some "/foo?bar=1")
    "(request-target)"
  = Ok "(request-target): get /foo?bar=1".
Proof. reflexivity. Qed.

(** * Further properties of [verify.py] *)

(** ** [Verifier._verify]: text, bytes and the decoding *)

Section DispatchEdges.

Context {E : Externals}.

(** Every event of [_verify] is a call of the dispatch, and at most one of
    them hands a signature to a primitive. *)
Lemma _verify_events_shape v data signature :
  Forall (λ ev, is_dispatch_event ev = true)
    (events (_verify v data signature))
  ∧ length (omap handed_signature (events (_verify v data signature))) ≤ 1.
Proof.
  unfold _verify, events, _sign_hmac. run_monad.
  destruct (as_bytes data) as [d|e]; simpl; [|by split; [constructor|lia]].
  destruct (as_bytes signature) as [raw|e]; simpl;
    [|by split; [constructor|lia]].
  destruct (sign_algorithm v) as [name|impl|]; simpl.
  - destruct (String.eqb name "rsa").
    + destruct (_hash v); simpl; [|by split; [constructor|lia]].
      destruct (_rsa v) as [rsa|]; simpl; [|by split; [constructor|lia]].
      destruct (b64decode raw) as [dec|e]; simpl;
        (split; [by repeat constructor | lia]).
    + destruct (String.eqb name "hmac"); simpl;
        [|by split; [constructor|lia]].
      destruct (b64decode raw) as [dec|e]; simpl;
        (split; [by repeat constructor | lia]).
  - split; [by repeat constructor | lia].
  - split; [constructor | lia].
Qed.

(** X1. Text outside ASCII never reaches a branch: [data.encode("ascii")]
    (then [signature.encode("ascii")]) raises, whatever the algorithm is,
    and nothing has been called. *)
Theorem non_ascii_text_refused_before_dispatch
    (v : Verifier) (data signature : pydata) s d :
  (PyStr.is_ascii s = false →
   _verify v (Str s) signature = ([], Err (UnicodeEncodeError s)))
  ∧ (as_bytes data = Ok d → PyStr.is_ascii s = false →
     _verify v data (Str s) = ([], Err (UnicodeEncodeError s))).
Proof.
  split.
  - intros Hs. unfold _verify. run_monad. simpl.
    unfold PyStr.encode_ascii. by rewrite Hs.
  - intros Hd Hs. unfold _verify. run_monad. rewrite Hd. simpl.
    unfold PyStr.encode_ascii. by rewrite Hs.
Qed.

(** X2. ASCII text and its bytes are interchangeable, for the data and for
    the signature: the run is the same, event for event. *)
Theorem ascii_text_and_bytes_agree (v : Verifier) s t :
  PyStr.is_ascii s = true → PyStr.is_ascii t = true →
  _verify v (Str s) (Str t)
  = _verify v (Bytes (PyStr.to_bytes s)) (Bytes (PyStr.to_bytes t)).
Proof.
  intros Hs Ht. unfold _verify. simpl.
  unfold PyStr.encode_ascii. by rewrite Hs, Ht.
Qed.

(** X3. A signature that [base64.b64decode] refuses ends both built-in
    branches with the decoder's exception: the RSA predicate and the
    comparison are not reached (the keyed digest was computed already in
    the HMAC branch). *)
Theorem undecodable_signature_stops_builtin_families
    (v : Verifier) data signature d raw e :
  as_bytes data = Ok d → as_bytes signature = Ok raw →
  b64decode raw = Err e →
  (sign_algorithm v = SaStr "hmac" →
   _verify v data signature
   = ([Call_sign_hmac d; Call_b64decode raw], Err e))
  ∧ (∀ hm rsa, sign_algorithm v = SaStr "rsa" →
       _hash v = Some hm → _rsa v = Some rsa →
       _verify v data signature = ([Call_b64decode raw], Err e)).
Proof.
  intros Hd Hraw Hdec. split.
  - intros Hsa. unfold _verify, _sign_hmac. run_monad.
    by rewrite Hd, Hraw, Hsa, Hdec.
  - intros hm rsa Hsa Hhm Hrsa. unfold _verify. run_monad.
    by rewrite Hd, Hraw, Hsa, Hhm, Hrsa, Hdec.
Qed.

End DispatchEdges.

Lemma non_ascii_text_refused_before_dispatch_witness :
  _verify (E := Sample.externals) Sample.rsa_base
    (Str Sample.e_acute) (Str "AAEC")
  = ([], Err (UnicodeEncodeError Sample.e_acute))
  ∧ _verify (E := Sample.externals) Sample.extension_base
      (Bytes [x00]) (Str Sample.e_acute)
    = ([], Err (UnicodeEncodeError Sample.e_acute)).
Proof.
  split.
  - exact (proj1 (non_ascii_text_refused_before_dispatch
                    (E := Sample.externals) Sample.rsa_base
                    (Bytes []) (Str "AAEC") Sample.e_acute []) eq_refl).
  - exact (proj2 (non_ascii_text_refused_before_dispatch
                    (E := Sample.externals) Sample.extension_base
                    (Bytes [x00]) (Bytes []) Sample.e_acute [x00])
             eq_refl eq_refl).
Defined.

Lemma ascii_text_and_bytes_agree_witness :
  _verify (E := Sample.externals) Sample.hmac_base (Str "abc") (Str "X9kj")
  = _verify (E := Sample.externals) Sample.hmac_base
      (Bytes (PyStr.to_bytes "abc")) (Bytes (PyStr.to_bytes "X9kj")).
Proof.
  exact (ascii_text_and_bytes_agree (E := Sample.externals)
           Sample.hmac_base "abc" "X9kj" eq_refl eq_refl).
Defined.

Lemma undecodable_signature_stops_builtin_families_witness :
  _verify (E := Sample.externals) Sample.hmac_base (Str "abc") (Str "X9k")
  = ([Call_sign_hmac (PyStr.to_bytes "abc");
      Call_b64decode (PyStr.to_bytes "X9k")],
     Err (BinasciiError "Incorrect padding"))
  ∧ _verify (E := Sample.externals) Sample.rsa_base (Str "abc") (Str "X9k")
    = ([Call_b64decode (PyStr.to_bytes "X9k")],
       Err (BinasciiError "Incorrect padding")).
Proof.
  split.
  - exact (proj1 (undecodable_signature_stops_builtin_families
                    (E := Sample.externals) Sample.hmac_base
                    (Str "abc") (Str "X9k") _ _ _
                    eq_refl eq_refl eq_refl) eq_refl).
  - exact (proj2 (undecodable_signature_stops_builtin_families
                    (E := Sample.externals) Sample.rsa_base
                    (Str "abc") (Str "X9k") _ _ _
                    eq_refl eq_refl eq_refl) _ _ eq_refl eq_refl eq_refl).
Defined.

(** ** [HeaderVerifier.verify]: the policy and the order of the steps *)

Lemma length_split_space s :
  length (PyStr.split_space s) = S (count_spaces s).
Proof.
  induction s as [|c s IH]; simpl; [done|].
  destruct (PyStr.is_space c); simpl.
  - by rewrite IH.
  - pose proof (PyStrFacts.split_space_nonempty s) as Hne.
    destruct (PyStr.split_space s) as [|w ws]; [done|]. simpl in *. lia.
Qed.

Section VerifySteps.

Context {E : Externals}.

(** Past the policy, the canonical string is asked for first. *)
Lemma verify_pass_starts_with_canonical_string self :
  missing_headers self = ∅ →
  ∃ l, events (verify self) = Call_generate_message (auth_headers self) :: l
       ∧ Forall (λ ev, is_dispatch_event ev = true) l
       ∧ length (omap handed_signature l) ≤ 1.
Proof.
  intros Hpass. rewrite (verify_policy_pass _ Hpass).
  unfold events. run_monad.
  destruct (generate_message _ _ _ _ _) as [signing_str|e]; simpl;
    [|exists []; repeat split; [constructor | simpl; lia]].
  destruct (CID.getitem (auth_dict self) "signature") as [sig|e]; simpl;
    [|exists []; repeat split; [constructor | simpl; lia]].
  pose proof (_verify_events_shape (base self) signing_str (Str sig))
    as [Hshape Hone].
  destruct (_verify (base self) signing_str (Str sig)) as [l r].
  simpl in *. by exists l.
Qed.

(** The set difference is empty exactly when the signed names cover the
    required ones. *)
Lemma missing_headers_empty_iff self :
  missing_headers self = ∅ ↔
  ∀ r, r ∈ required_headers self → r ∈ auth_headers self.
Proof.
  split.
  - intros Hempty r Hr.
    destruct (decide (r ∈ auth_headers self)) as [|Hnot]; [done|].
    assert (r ∈ missing_headers self) as Hin
      by by apply elem_of_missing_headers.
    rewrite Hempty in Hin. by apply elem_of_empty in Hin.
  - intros Hall. apply set_eq. intros x.
    rewrite elem_of_missing_headers, elem_of_empty.
    split; [|done]. intros [Hx Hnot]. by apply Hnot, Hall.
Qed.

(** X4. The policy holds exactly when every required name is one of the
    signed names, and [verify] ends with the required-header exception and
    no call exactly when some required name is not. *)
Theorem policy_passes_iff_required_signed (self : HeaderVerifier) :
  (missing_headers self = ∅ ↔
   ∀ r, r ∈ required_headers self → r ∈ auth_headers self)
  ∧ (verify self
     = ([], Err (Exception (required_msg self))) ↔
     ∃ r, r ∈ required_headers self ∧ r ∉ auth_headers self).
Proof.
  split; [apply missing_headers_empty_iff|]. split.
  - intros Hv.
    destruct (decide (missing_headers self = ∅)) as [Hpass|Hfail].
    + destruct (verify_pass_starts_with_canonical_string _ Hpass)
        as (l & Hev & _).
      rewrite Hv in Hev. discriminate.
    + destruct (set_choose_L _ Hfail) as [r Hr].
      exists r. by apply elem_of_missing_headers.
  - intros (r & Hr & Hnot). apply verify_policy_failure.
    intros Hempty.
    assert (r ∈ missing_headers self) as Hin
      by by apply elem_of_missing_headers.
    rewrite Hempty in Hin. by apply elem_of_empty in Hin.
Qed.

(** X5. The policy is a set, up to the wording of the refusal: two
    verifiers that differ only in the order and the repetitions of their
    required names have the same missing names; when there is none the two
    runs of [verify] are the same; when there is one, both raise the
    required-header exception without a call, and the two messages list
    the same names, each once, in an order that may differ. *)
Theorem policy_ignores_order_and_repetition (self self' : HeaderVerifier) :
  base self = base self' → headers self = headers self' →
  auth_dict self = auth_dict self' →
  method self = method self' → path self = path self' →
  host self = host self' →
  (∀ x, x ∈ required_headers self ↔ x ∈ required_headers self') →
  missing_headers self = missing_headers self'
  ∧ (missing_headers self = ∅ → verify self = verify self')
  ∧ (missing_headers self ≠ ∅ →
     verify self
     = ([], Err (Exception
                   (PyStr.join ", "
                      (set_iter (required_headers self) (auth_headers self))
                    +:+ " is a required header(s)")))
     ∧ verify self'
       = ([], Err (Exception
                     (PyStr.join ", "
                        (set_iter (required_headers self')
                           (auth_headers self'))
                      +:+ " is a required header(s)")))
     ∧ set_iter (required_headers self) (auth_headers self)
       ≡ₚ set_iter (required_headers self') (auth_headers self')).
Proof.
  intros Hbase Hheaders Hdict Hmethod Hpath Hhost Hsame.
  assert (auth_headers self = auth_headers self') as Hsigned
    by (unfold auth_headers; by rewrite Hdict).
  assert ((list_to_set (required_headers self) : gset string)
          = list_to_set (required_headers self')) as Hset.
  { apply set_eq. intros x. by rewrite !elem_of_list_to_set. }
  assert (missing_headers self = missing_headers self') as Hmissing
    by (unfold missing_headers; by rewrite Hset, Hsigned).
  split; [done|]. split.
  - intros Hpass.
    rewrite (verify_policy_pass self Hpass).
    rewrite (verify_policy_pass self') by by rewrite <- Hmissing.
    by rewrite Hsigned, Hheaders, Hhost, Hmethod, Hpath, Hdict, Hbase.
  - intros Hfail. split; [by apply verify_policy_failure|].
    split; [apply verify_policy_failure; by rewrite <- Hmissing|].
    rewrite !set_iter_perm. by rewrite Hset, Hsigned.
Qed.

(** X6. Past the policy, a failure of [generate_message] is the failure of
    [verify]; and parameters without a [signature] field end [verify] with
    [KeyError], after the canonical string was built.  In both cases no
    primitive has been called. *)
Theorem verify_fails_before_dispatch (self : HeaderVerifier) :
  missing_headers self = ∅ →
  (∀ e, generate_message (auth_headers self) (headers self)
          (host self) (method self) (path self) = Err e →
        verify self = ([Call_generate_message (auth_headers self)], Err e))
  ∧ (∀ signing_str,
       generate_message (auth_headers self) (headers self)
         (host self) (method self) (path self) = Ok signing_str →
       auth_dict self !! "signature" = None →
       verify self
       = ([Call_generate_message (auth_headers self)],
          Err (KeyError "signature"))).
Proof.
  intros Hpass. rewrite (verify_policy_pass _ Hpass). split.
  - intros e Hgen. run_monad. by rewrite Hgen.
  - intros signing_str Hgen Hnone. run_monad. rewrite Hgen.
    by rewrite (getitem_None (auth_dict self) "signature" Hnone).
Qed.

(** X7. The discipline of one run of [verify]: the canonical string is
    asked for exactly when the policy holds, and then for the signed names
    as they are; at most one primitive is handed a signature; nothing is
    printed and neither the parsers nor the base constructor are called. *)
Theorem verify_call_discipline (self : HeaderVerifier) :
  (∀ names, Call_generate_message names ∈ events (verify self) ↔
            missing_headers self = ∅ ∧ names = auth_headers self)
  ∧ length (omap handed_signature (events (verify self))) ≤ 1
  ∧ (∀ ev, ev ∈ events (verify self) →
           (∃ names, ev = Call_generate_message names)
           ∨ is_dispatch_event ev = true).
Proof.
  destruct (decide (missing_headers self = ∅)) as [Hpass|Hfail].
  - destruct (verify_pass_starts_with_canonical_string _ Hpass)
      as (l & -> & Hshape & Hone).
    rewrite Forall_forall in Hshape.
    split; [|split].
    + intros names. rewrite elem_of_cons. split.
      * intros [[= ->]|Hin]; [done|].
        apply Hshape in Hin. discriminate.
      * intros [_ ->]. by left.
    + change (omap handed_signature
                (Call_generate_message (auth_headers self) :: l))
        with (omap handed_signature l).
      lia.
    + intros ev [->|Hin]%elem_of_cons; [left; eauto | right; auto].
  - rewrite (verify_policy_failure _ Hfail). unfold events. simpl.
    split; [|split].
    + intros names. split; [by intros ?%elem_of_nil | by intros [? _]].
    + lia.
    + by intros ev ?%elem_of_nil.
Qed.

(** X8. A [headers] parameter that is present is taken as it is, never
    replaced by the default: its pieces between single spaces are the
    signed names, one more than it has spaces, so that an empty parameter
    signs the one empty name and a doubled space signs an empty name. *)
Theorem present_headers_parameter_split_as_is (self : HeaderVerifier) h :
  auth_dict self !! "headers" = Some h →
  auth_headers self = PyStr.split_space h
  ∧ length (auth_headers self) = S (count_spaces h)
  ∧ (h = "" → auth_headers self = [""])
  ∧ PyStr.join " " (auth_headers self) = h.
Proof.
  intros Hh.
  assert (auth_headers self = PyStr.split_space h) as ->.
  { unfold auth_headers, CID.get.
    change (PyStr.lower "headers") with "headers". by rewrite Hh. }
  split; [done|]. split; [apply length_split_space|].
  split; [by intros ->|]. apply PyStrFacts.join_split_space.
Qed.

End VerifySteps.

Lemma policy_ignores_order_and_repetition_witness :
  verify (E := Sample.externals) Sample.hv_host_signed
  = ([], Err (Exception "date, digest is a required header(s)"))
  ∧ verify (E := Sample.externals) Sample.hv_host_signed_reordered
    = ([], Err (Exception "digest, date is a required header(s)"))
  ∧ @set_iter Sample.externals
      (required_headers Sample.hv_host_signed)
      (auth_headers Sample.hv_host_signed)
    ≡ₚ @set_iter Sample.externals
         (required_headers Sample.hv_host_signed_reordered)
         (auth_headers Sample.hv_host_signed_reordered).
Proof.
  assert (missing_headers Sample.hv_host_signed ≠ ∅) as Hne.
  { intros H. apply (f_equal size) in H. vm_compute in H. discriminate. }
  destruct (policy_ignores_order_and_repetition (E := Sample.externals)
              Sample.hv_host_signed Sample.hv_host_signed_reordered
              eq_refl eq_refl eq_refl eq_refl eq_refl eq_refl)
    as (_ & _ & Hfail).
  - intros x. simpl. rewrite !elem_of_cons, !elem_of_nil. tauto.
  - destruct (Hfail Hne) as (Hv & Hv' & Hperm).
    split; [|split; [|exact Hperm]].
    + rewrite Hv. vm_compute. reflexivity.
    + rewrite Hv'. vm_compute. reflexivity.
Defined.

Lemma verify_fails_before_dispatch_witness :
  verify (E := Sample.externals) Sample.hv_digest_signed
  = ([Call_generate_message ["digest"]],
     Err (Exception "missing required header digest"))
  ∧ verify (E := Sample.externals) Sample.hv_no_signature_field
    = ([Call_generate_message ["date"]], Err (KeyError "signature")).
Proof.
  split.
  - assert (missing_headers Sample.hv_digest_signed = ∅) as Hpass.
    { apply leibniz_equiv, size_empty_inv. vm_compute. reflexivity. }
    apply (proj1 (verify_fails_before_dispatch (E := Sample.externals)
                    Sample.hv_digest_signed Hpass)).
    vm_compute. reflexivity.
  - assert (missing_headers Sample.hv_no_signature_field = ∅) as Hpass.
    { apply leibniz_equiv, size_empty_inv. vm_compute. reflexivity. }
    apply (proj2 (verify_fails_before_dispatch (E := Sample.externals)
                    Sample.hv_no_signature_field Hpass)
             (Str "date: Tue, 07 Jun 2014 20:51:35 GMT")).
    + vm_compute. reflexivity.
    + vm_compute. reflexivity.
Defined.

Lemma present_headers_parameter_split_as_is_witness :
  auth_headers Sample.hv_doubled_space = ["date"; ""; "digest"]
  ∧ length (auth_headers Sample.hv_doubled_space) = 3.
Proof.
  assert (auth_dict Sample.hv_doubled_space !! "headers"
          = Some "date  digest") as Hh by (vm_compute; reflexivity).
  destruct (present_headers_parameter_split_as_is _ _ Hh)
    as (Hsplit & Hlen & _).
  split; [exact Hsplit | exact Hlen].
Defined.

(** ** [HeaderVerifier.__init__]: the header read, the tag, the policy *)

Section ConstructorSteps.

Context {E : Externals}.

(** Reading the signature-bearing header calls a parser at most, and
    prints nothing. *)
Lemma read_auth_events hdrs sign_header :
  Forall (λ ev, is_parse_event ev = true)
    (events (read_auth hdrs sign_header)).
Proof.
  unfold read_auth, events. run_monad.
  destruct (String.eqb _ _).
  - destruct (CID.getitem hdrs "authorization") as [v|e]; simpl;
      [|constructor].
    destruct (parse_authorization_header v) as [auth|e]; simpl;
      [|by repeat constructor].
    destruct auth as [|x [|y [|z auth]]]; simpl; by repeat constructor.
  - destruct (CID.getitem hdrs sign_header) as [v|e]; simpl; [|constructor].
    destruct (parse_signature_header v) as [d|e]; simpl;
      by repeat constructor.
Qed.

(** The constructor, once the parameters are read and name an algorithm. *)
Lemma init_after_read hdrs key req m p h sign_header sa l0 d algorithm :
  read_auth (CID.of_items hdrs) sign_header = (l0, Ok (PDict d)) →
  d !! "algorithm" = Some algorithm →
  HeaderVerifier_init hdrs key req m p h sign_header sa
  = (if negb (String.eqb algorithm DEFAULT_ALGORITHM) then
       (l0 ++ [Print (deprecated_msg algorithm);
               Call_Signer_init algorithm (bool_decide (sa ≠ None))],
        match Signer_init key algorithm sa with
        | Ok b =>
            Ok {| base := b; headers := CID.of_items hdrs; auth_dict := d;
                  required_headers := map PyStr.lower (or_default req);
                  method := m; path := p; host := h |}
        | Err e => Err e
        end)
     else if bool_decide (sa = None) then
       (l0, Err (HttpSigException not_set_msg))
     else
       (l0 ++ [Call_Signer_init algorithm (bool_decide (sa ≠ None))],
        match Signer_init key algorithm sa with
        | Ok b =>
            Ok {| base := b; headers := CID.of_items hdrs; auth_dict := d;
                  required_headers := map PyStr.lower (or_default req);
                  method := m; path := p; host := h |}
        | Err e => Err e
        end)).
Proof.
  intros Hread Halg.
  pose proof (getitem_Some d "algorithm" algorithm Halg) as Hget.
  unfold HeaderVerifier_init. run_monad.
  rewrite Hread, Hget. unfold check_algorithm.
  destruct (String.eqb algorithm DEFAULT_ALGORITHM); simpl.
  - destruct (bool_decide (sa = None)); simpl.
    + by rewrite app_nil_r.
    + run_monad. by destruct (Signer_init key algorithm sa).
  - run_monad. by destruct (Signer_init key algorithm sa).
Qed.

(** The constructor, when the parameters are not available. *)
Lemma init_without_parameters hdrs key req m p h sign_header sa :
  (∀ l0 d, read_auth (CID.of_items hdrs) sign_header ≠ (l0, Ok (PDict d))) →
  ∃ e, HeaderVerifier_init hdrs key req m p h sign_header sa
       = (events (read_auth (CID.of_items hdrs) sign_header), Err e).
Proof.
  intros Hnot. unfold HeaderVerifier_init. run_monad.
  destruct (read_auth _ _) as [l0 [[s|d]|e]]; simpl.
  - eexists. by rewrite app_nil_r.
  - by destruct (Hnot l0 d).
  - by eexists.
Qed.

Lemma init_without_algorithm hdrs key req m p h sign_header sa l0 d :
  read_auth (CID.of_items hdrs) sign_header = (l0, Ok (PDict d)) →
  d !! "algorithm" = None →
  HeaderVerifier_init hdrs key req m p h sign_header sa
  = (l0, Err (KeyError "algorithm")).
Proof.
  intros Hread Hnone. unfold HeaderVerifier_init. run_monad.
  rewrite Hread.
  rewrite (getitem_None d "algorithm" Hnone). by rewrite app_nil_r.
Qed.

(** X9. Every spelling of the name [authorization] designates the
    Authorization header: the constructor runs as for the lower-case
    name. *)
Theorem authorization_name_in_any_case
    hdrs key req m p h sign_header sa :
  PyStr.lower sign_header = "authorization" →
  HeaderVerifier_init hdrs key req m p h sign_header sa
  = HeaderVerifier_init hdrs key req m p h "authorization" sa.
Proof.
  intros Hsh. unfold HeaderVerifier_init, read_auth. by rewrite Hsh.
Qed.

(** X10. Any other designated header is read under its own name and
    handed to [parse_signature_header] as it is, with no scheme token
    expected and the Authorization parser not called; a header map without
    it ends the construction with the lookup's [KeyError], and the
    parser's exception is the constructor's. *)
Theorem other_sign_header_read_without_scheme
    hdrs key req m p h sign_header sa :
  PyStr.lower sign_header ≠ "authorization" →
  (CID.of_items hdrs !! PyStr.lower sign_header = None →
   HeaderVerifier_init hdrs key req m p h sign_header sa
   = ([], Err (KeyError (PyStr.lower sign_header))))
  ∧ (∀ v, CID.of_items hdrs !! PyStr.lower sign_header = Some v →
       (∀ e, parse_signature_header v = Err e →
             HeaderVerifier_init hdrs key req m p h sign_header sa
             = ([Call_parse_signature_header v], Err e))
       ∧ (∀ d, parse_signature_header v = Ok d →
               read_auth (CID.of_items hdrs) sign_header
               = ([Call_parse_signature_header v], Ok (PDict d))
               ∧ ∀ l self,
                   HeaderVerifier_init hdrs key req m p h sign_header sa
                   = (l, Ok self) →
                   auth_dict self = d)).
Proof.
  intros Hsh%String.eqb_neq. split; [|intros v Hv; split].
  - intros Hnone. apply init_read_auth_failure.
    unfold read_auth. rewrite Hsh.
    by rewrite (getitem_None _ sign_header Hnone).
  - intros e He. apply init_read_auth_failure.
    unfold read_auth. rewrite Hsh.
    rewrite (getitem_Some _ sign_header v Hv). run_monad. by rewrite He.
  - intros d Hd.
    assert (read_auth (CID.of_items hdrs) sign_header
            = ([Call_parse_signature_header v], Ok (PDict d))) as Hread.
    { unfold read_auth. rewrite Hsh.
      rewrite (getitem_Some _ sign_header v Hv). run_monad. by rewrite Hd. }
    split; [done|].
    intros l self (l0 & d' & alg & b & Hread' & _ & _ & ->)%init_success.
    rewrite Hread in Hread'. simpl. congruence.
Qed.

(** X11. Parameters that name no algorithm end the construction with
    [KeyError('algorithm')]: nothing is printed and the base constructor is
    not called. *)
Theorem missing_algorithm_parameter_raises
    hdrs key req m p h sign_header sa l0 d :
  read_auth (CID.of_items hdrs) sign_header = (l0, Ok (PDict d)) →
  d !! "algorithm" = None →
  HeaderVerifier_init hdrs key req m p h sign_header sa
  = (l0, Err (KeyError "algorithm"))
  ∧ Forall (λ ev, is_parse_event ev = true) l0.
Proof.
  intros Hread Hnone.
  split; [by apply (init_without_algorithm _ _ _ _ _ _ _ _ l0 d)|].
  pose proof (read_auth_events (CID.of_items hdrs) sign_header) as Hev.
  by rewrite Hread in Hev.
Qed.

(** X12. The advisory is printed exactly for a tag other than
    [DEFAULT_ALGORITHM], read from parameters that were parsed; its text
    names that tag and the default. *)
Theorem advisory_printed_iff_legacy_tag
    hdrs key req m p h sign_header sa msg :
  Print msg ∈ events (HeaderVerifier_init hdrs key req m p h sign_header sa)
  ↔ ∃ l0 d algorithm,
      read_auth (CID.of_items hdrs) sign_header = (l0, Ok (PDict d))
      ∧ d !! "algorithm" = Some algorithm
      ∧ algorithm ≠ DEFAULT_ALGORITHM
      ∧ msg = "Algorithm: " +:+ algorithm
              +:+ " is deprecated please update to " +:+ DEFAULT_ALGORITHM.
Proof.
  pose proof (read_auth_events (CID.of_items hdrs) sign_header) as Hparse.
  rewrite Forall_forall in Hparse.
  assert (∀ l0 r, read_auth (CID.of_items hdrs) sign_header = (l0, r) →
                  Print msg ∉ l0) as Hquiet.
  { intros l0 r Hread Hin. rewrite Hread in Hparse.
    apply Hparse in Hin. discriminate. }
  destruct (read_auth (CID.of_items hdrs) sign_header)
    as [l0 r] eqn:Hread.
  specialize (Hquiet l0 r eq_refl).
  assert ((∃ d, r = Ok (PDict d)) ∨ ∀ d, r ≠ Ok (PDict d)) as [[d ->]|Hno].
  { destruct r as [[s|d]|e]; eauto; right; congruence. }
  - destruct (d !! "algorithm") as [algorithm|] eqn:Halg.
    + rewrite (init_after_read _ _ _ _ _ _ _ _ _ _ _ Hread Halg).
      destruct (String.eqb algorithm DEFAULT_ALGORITHM) eqn:Heq; simpl.
      * apply String.eqb_eq in Heq.
        split.
        -- destruct (bool_decide (sa = None)); unfold events; simpl.
           ++ done.
           ++ rewrite elem_of_app, list_elem_of_singleton.
              intros [?|?]; [done|congruence].
        -- intros (l1 & d1 & a1 & [= <- <-] & Ha1 & Hne & _).
           congruence.
      * apply String.eqb_neq in Heq. unfold events. simpl. split.
        -- rewrite elem_of_app, !elem_of_cons, elem_of_nil.
           intros [?|[[= ->]|[?|[]]]]; [done| |congruence].
           by exists l0, d, algorithm.
        -- intros (l1 & d1 & a1 & [= <- <-] & Ha1 & Hne & ->).
           assert (a1 = algorithm) as -> by congruence.
           rewrite elem_of_app. right. by left.
    + rewrite (init_without_algorithm _ _ _ _ _ _ _ _ _ _ Hread Halg).
      split; [done|].
      intros (l1 & d1 & a1 & [= <- <-] & Ha1 & _). congruence.
  - destruct (init_without_parameters hdrs key req m p h sign_header sa)
      as [e ->].
    { rewrite Hread. intros l1 d1 [= _ ->]. by destruct (Hno d1). }
    rewrite Hread. unfold events. simpl. split; [done|].
    intros (l1 & d1 & a1 & [= _ ->] & _). by destruct (Hno d1).
Qed.

(** X13. [Signer.__init__] is called only once the parameters are parsed
    and name an algorithm, with that algorithm, and never for
    [DEFAULT_ALGORITHM] without an implementation. *)
Theorem base_constructor_reached_after_checks
    hdrs key req m p h sign_header sa algorithm flag :
  Call_Signer_init algorithm flag
    ∈ events (HeaderVerifier_init hdrs key req m p h sign_header sa) →
  ∃ l0 d,
    read_auth (CID.of_items hdrs) sign_header = (l0, Ok (PDict d))
    ∧ d !! "algorithm" = Some algorithm
    ∧ (algorithm = DEFAULT_ALGORITHM → sa ≠ None)
    ∧ flag = bool_decide (sa ≠ None).
Proof.
  pose proof (read_auth_events (CID.of_items hdrs) sign_header) as Hparse.
  rewrite Forall_forall in Hparse.
  destruct (read_auth (CID.of_items hdrs) sign_header)
    as [l0 r] eqn:Hread.
  assert (Call_Signer_init algorithm flag ∉ l0) as Hquiet.
  { intros Hin. apply Hparse in Hin. discriminate. }
  assert ((∃ d, r = Ok (PDict d)) ∨ ∀ d, r ≠ Ok (PDict d)) as [[d ->]|Hno].
  { destruct r as [[s|d]|e]; eauto; right; congruence. }
  - destruct (d !! "algorithm") as [alg|] eqn:Halg.
    + rewrite (init_after_read _ _ _ _ _ _ _ _ _ _ _ Hread Halg).
      destruct (String.eqb alg DEFAULT_ALGORITHM) eqn:Heq; simpl.
      * destruct (bool_decide (sa = None)) eqn:Hsa; unfold events; simpl.
        -- done.
        -- rewrite elem_of_app, list_elem_of_singleton.
           intros [?|[= -> ->]]; [done|].
           exists l0, d. repeat split; [done|].
           intros _ ->. by rewrite bool_decide_eq_false in Hsa.
      * apply String.eqb_neq in Heq. unfold events. simpl.
        rewrite elem_of_app, !elem_of_cons, elem_of_nil.
        intros [?|[?|[[= -> ->]|[]]]]; [done|congruence|].
        by exists l0, d.
    + rewrite (init_without_algorithm _ _ _ _ _ _ _ _ _ _ Hread Halg).
      unfold events. simpl. done.
  - destruct (init_without_parameters hdrs key req m p h sign_header sa)
      as [e ->].
    { rewrite Hread. intros l1 d1 [= _ ->]. by destruct (Hno d1). }
    rewrite Hread. unfold events. simpl. done.
Qed.

(** X14. The generic tag with an implementation is accepted in silence,
    and whatever the tag, an exception of [Signer.__init__] is the
    constructor's. *)
Theorem generic_tag_with_implementation_accepted
    hdrs key req m p h sign_header impl l0 d :
  read_auth (CID.of_items hdrs) sign_header = (l0, Ok (PDict d)) →
  d !! "algorithm" = Some DEFAULT_ALGORITHM →
  (∀ b, Signer_init key DEFAULT_ALGORITHM (Some impl) = Ok b →
        HeaderVerifier_init hdrs key req m p h sign_header (Some impl)
        = (l0 ++ [Call_Signer_init DEFAULT_ALGORITHM true],
           Ok {| base := b; headers := CID.of_items hdrs; auth_dict := d;
                 required_headers := map PyStr.lower (or_default req);
                 method := m; path := p; host := h |}))
  ∧ (∀ e, Signer_init key DEFAULT_ALGORITHM (Some impl) = Err e →
          HeaderVerifier_init hdrs key req m p h sign_header (Some impl)
          = (l0 ++ [Call_Signer_init DEFAULT_ALGORITHM true], Err e)).
Proof.
  intros Hread Halg.
  rewrite (init_after_read _ _ _ _ _ _ _ _ _ _ _ Hread Halg).
  rewrite String.eqb_refl. simpl.
  split; [intros b -> | intros e ->]; done.
Qed.

(** X15. The policy is the caller's names lower-cased: spelling them in
    another case builds the same verifier. *)
Theorem policy_names_case_insensitive
    hdrs key (required : list string) m p h sign_header sa :
  HeaderVerifier_init hdrs key (Some required) m p h sign_header sa
  = HeaderVerifier_init hdrs key (Some (map PyStr.lower required))
      m p h sign_header sa.
Proof.
  assert (map PyStr.lower (or_default (Some required))
          = map PyStr.lower (or_default (Some (map PyStr.lower required))))
    as Hsame.
  { destruct required as [|x required]; [done|]. simpl.
    rewrite PyStrFacts.lower_idempotent. f_equal.
    rewrite <- list_fmap_compose. apply list_fmap_ext.
    intros ? y _. simpl. by rewrite PyStrFacts.lower_idempotent. }
  unfold HeaderVerifier_init. by rewrite Hsame.
Qed.

(** X16. A policy that is not empty replaces the default altogether: the
    verifier requires the given names, lower-cased, and [date] only if it
    is one of them. *)
Theorem nonempty_policy_replaces_default
    hdrs key (required : list string) m p h sign_header sa l
    (self : HeaderVerifier) :
  required ≠ [] →
  HeaderVerifier_init hdrs key (Some required) m p h sign_header sa
  = (l, Ok self) →
  required_headers self = map PyStr.lower required
  ∧ (missing_headers self = ∅ ↔
     ∀ x, x ∈ required → PyStr.lower x ∈ auth_headers self)
  ∧ ("date" ∉ map PyStr.lower required → "date" ∉ missing_headers self).
Proof.
  intros Hne Hinit.
  assert (required_headers self = map PyStr.lower required) as Hrh.
  { rewrite (init_required_headers _ _ _ _ _ _ _ _ _ _ Hinit).
    by destruct required. }
  split; [done|]. split.
  - rewrite (missing_headers_empty_iff self), Hrh.
    split.
    + intros Hall x Hx. apply Hall, list_elem_of_fmap. eauto.
    + intros Hall r (x & -> & Hx)%list_elem_of_fmap. by apply Hall.
  - intros Hnot [Hin _]%elem_of_missing_headers. by rewrite Hrh in Hin.
Qed.

End ConstructorSteps.

Lemma authorization_name_in_any_case_witness :
  HeaderVerifier_init (E := Sample.externals)
    (Sample.request Sample.legacy_value) (Str "secret")
    None None None None "AUTHORIZATION" None
  = Sample.construct Sample.legacy_value None None.
Proof.
  exact (authorization_name_in_any_case (E := Sample.externals)
           (Sample.request Sample.legacy_value) (Str "secret")
           None None None None "AUTHORIZATION" None eq_refl).
Defined.

Lemma other_sign_header_read_without_scheme_witness :
  HeaderVerifier_init (E := Sample.externals) Sample.date_header
    (Str "secret") None None None None "Signature" None
  = ([], Err (KeyError "signature"))
  ∧ read_auth (E := Sample.externals)
      (CID.of_items Sample.signature_header_request) "Signature"
    = ([Call_parse_signature_header
          (Sample.signature_params "hmac-sha256" "date" "X9kj")],
       Ok (PDict (Sample.params_of
                    (Sample.parse_params
                       (Sample.signature_params
                          "hmac-sha256" "date" "X9kj"))))).
Proof.
  split.
  - apply (other_sign_header_read_without_scheme (E := Sample.externals)
             Sample.date_header (Str "secret") None None None None
             "Signature" None).
    + vm_compute. discriminate.
    + vm_compute. reflexivity.
  - destruct (other_sign_header_read_without_scheme
                (E := Sample.externals)
                Sample.signature_header_request (Str "secret")
                None None None None "Signature" None) as [_ Hpresent].
    + vm_compute. discriminate.
    + destruct (Hpresent
                  (Sample.signature_params "hmac-sha256" "date" "X9kj"))
        as [_ Hparsed]; [vm_compute; reflexivity|].
      apply Hparsed. vm_compute. reflexivity.
Defined.

Lemma missing_algorithm_parameter_raises_witness :
  Sample.construct Sample.no_algorithm_value None None
  = ([Call_parse_authorization_header Sample.no_algorithm_value],
     Err (KeyError "algorithm")).
Proof.
  pose (r := read_auth (E := Sample.externals)
               (CID.of_items (Sample.request Sample.no_algorithm_value))
               "authorization").
  assert (r = (events r, Ok (PDict (Sample.parsed r)))) as Hread
    by (vm_compute; reflexivity).
  assert (Sample.parsed r !! "algorithm" = None) as Hnone
    by (vm_compute; reflexivity).
  destruct (missing_algorithm_parameter_raises (E := Sample.externals)
              (Sample.request Sample.no_algorithm_value) (Str "secret")
              None None None None "authorization" None _ _ Hread Hnone)
    as [Hinit _].
  unfold Sample.construct. rewrite Hinit. vm_compute. reflexivity.
Defined.

Lemma base_constructor_reached_after_checks_witness :
  ∃ l0 d,
    read_auth (E := Sample.externals)
      (CID.of_items (Sample.request Sample.legacy_value)) "authorization"
    = (l0, Ok (PDict d))
    ∧ d !! "algorithm" = Some "hmac-sha256"
    ∧ ("hmac-sha256" = "hs2019" → (None : option SignAlgorithm) ≠ None)
    ∧ false = bool_decide ((None : option SignAlgorithm) ≠ None).
Proof.
  apply (base_constructor_reached_after_checks (E := Sample.externals)
           (Sample.request Sample.legacy_value) (Str "secret")
           None None None None "authorization" None "hmac-sha256" false).
  vm_compute. do 2 apply list_elem_of_further. apply list_elem_of_here.
Defined.

Lemma generic_tag_with_implementation_accepted_witness :
  events (Sample.construct Sample.generic_value None
            (Some Sample.fixed_signature))
  = [Call_parse_authorization_header Sample.generic_value;
     Call_Signer_init "hs2019" true]
  ∧ ∃ self, outcome (Sample.construct Sample.generic_value None
                       (Some Sample.fixed_signature)) = Ok self.
Proof.
  pose (r := read_auth (E := Sample.externals)
               (CID.of_items (Sample.request Sample.generic_value))
               "authorization").
  assert (r = (events r, Ok (PDict (Sample.parsed r)))) as Hread
    by (vm_compute; reflexivity).
  assert (Sample.parsed r !! "algorithm" = Some "hs2019") as Halg
    by (vm_compute; reflexivity).
  destruct (generic_tag_with_implementation_accepted
              (E := Sample.externals)
              (Sample.request Sample.generic_value) (Str "secret")
              None None None None "authorization" Sample.fixed_signature
              _ _ Hread Halg) as [Hok _].
  unfold Sample.construct. rewrite (Hok _ eq_refl).
  split; [vm_compute; reflexivity | by eexists].
Defined.

Lemma nonempty_policy_replaces_default_witness :
  required_headers
    (Sample.built
       (Sample.construct Sample.digest_only_value (Some ["Digest"]) None))
  = ["digest"]
  ∧ missing_headers
      (Sample.built
         (Sample.construct Sample.digest_only_value (Some ["Digest"]) None))
    = ∅.
Proof.
  set (m := Sample.construct Sample.digest_only_value (Some ["Digest"]) None).
  assert (m = (events m, Ok (Sample.built m))) as Hinit
    by (vm_compute; reflexivity).
  destruct (nonempty_policy_replaces_default (E := Sample.externals)
              _ _ ["Digest"] _ _ _ _ _ _ _ ltac:(discriminate) Hinit)
    as (Hrh & Hpass & _).
  split; [exact Hrh|].
  apply Hpass. intros x ->%list_elem_of_singleton.
  vm_compute. apply list_elem_of_here.
Defined.

(** ** What an answer of [verify] stands for *)

Section Answers.

Context {E : Externals}.

(** Where a boolean answer of [verify] comes from. *)
Lemma verify_Ok_inv (self : HeaderVerifier) b :
  outcome (verify self) = Ok b →
  missing_headers self = ∅
  ∧ ∃ signing_str sig,
      generate_message (auth_headers self) (headers self)
        (host self) (method self) (path self) = Ok signing_str
      ∧ auth_dict self !! "signature" = Some sig
      ∧ outcome (_verify (base self) signing_str (Str sig)) = Ok b.
Proof.
  intros Hb.
  destruct (decide (missing_headers self = ∅)) as [Hpass|Hfail];
    [|by rewrite (verify_policy_failure _ Hfail) in Hb].
  split; [done|].
  rewrite (verify_policy_pass _ Hpass) in Hb. unfold outcome in *.
  run_monad.
  destruct (generate_message _ _ _ _ _) as [signing_str|e];
    [|discriminate].
  destruct (CID.getitem (auth_dict self) "signature") as [sig|e] eqn:Hsig;
    [|discriminate].
  apply getitem_Ok in Hsig.
  exists signing_str, sig. repeat split; [done|].
  by destruct (_verify (base self) signing_str (Str sig)).
Qed.

(** X17. [verify] answers with a boolean only when the policy holds, the
    canonical string was built and the parameters carry a signature: the
    answer is then the dispatch's for that string and that signature. *)
Theorem boolean_answer_implies_policy (self : HeaderVerifier) b :
  outcome (verify self) = Ok b →
  missing_headers self = ∅
  ∧ (∀ r, r ∈ required_headers self → r ∈ auth_headers self)
  ∧ ∃ signing_str sig,
      generate_message (auth_headers self) (headers self)
        (host self) (method self) (path self) = Ok signing_str
      ∧ auth_dict self !! "signature" = Some sig
      ∧ outcome (_verify (base self) signing_str (Str sig)) = Ok b.
Proof.
  intros Hb. destruct (verify_Ok_inv self b Hb) as [Hpass Hfrom].
  split; [done|]. split; [by apply missing_headers_empty_iff|done].
Qed.

(** X18. A verifier of the HMAC family accepts exactly the requests whose
    signed names cover the policy, whose canonical string is built, and
    whose [signature] parameter decodes to the keyed digest of that
    string. *)
Theorem hmac_verifier_accepts_exactly_matching_digest
    (self : HeaderVerifier) :
  sign_algorithm (base self) = SaStr "hmac" →
  outcome (verify self) = Ok true
  ↔ (∀ r, r ∈ required_headers self → r ∈ auth_headers self)
    ∧ ∃ signing_str sig d raw,
        generate_message (auth_headers self) (headers self)
          (host self) (method self) (path self) = Ok signing_str
        ∧ auth_dict self !! "signature" = Some sig
        ∧ as_bytes signing_str = Ok d
        ∧ PyStr.encode_ascii sig = Ok raw
        ∧ b64decode raw
          = Ok (hmac_digest (hash_algorithm (base self))
                  (secret (base self)) d).
Proof.
  intros Hsa. split.
  - intros Htrue.
    destruct (verify_Ok_inv self true Htrue)
      as (Hpass & signing_str & sig & Hgen & Hsig & Hv).
    split; [by apply missing_headers_empty_iff|].
    unfold outcome, _verify, _sign_hmac in Hv. run_monad.
    rewrite Hsa in Hv. simpl in Hv.
    destruct (as_bytes signing_str) as [d|e] eqn:Hd; [|discriminate].
    destruct (PyStr.encode_ascii sig) as [raw|e] eqn:Hraw; [|discriminate].
    destruct (b64decode raw) as [dec|e] eqn:Hdec; [|discriminate].
    simpl in Hv. injection Hv as Hcmp.
    apply CtCompareFacts.ct_bytes_compare_true in Hcmp. subst dec.
    exists signing_str, sig, d, raw. by repeat split.
  - intros (Hall & signing_str & sig & d & raw & Hgen & Hsig & Hd
            & Hraw & Hdec).
    apply missing_headers_empty_iff in Hall.
    rewrite (verify_policy_pass _ Hall). unfold outcome. run_monad.
    rewrite Hgen, (getitem_Some (auth_dict self) "signature" sig Hsig).
    rewrite (_verify_hmac (base self) signing_str (Str sig) d raw _
               Hsa Hd Hraw Hdec).
    simpl. f_equal. by apply CtCompareFacts.ct_bytes_compare_true.
Qed.

End Answers.

Lemma boolean_answer_implies_policy_witness :
  missing_headers Sample.hv_tampered = ∅
  ∧ (∀ r, r ∈ required_headers Sample.hv_tampered →
          r ∈ auth_headers Sample.hv_tampered)
  ∧ ∃ signing_str sig,
      @generate_message Sample.externals
        (auth_headers Sample.hv_tampered) (headers Sample.hv_tampered)
        (host Sample.hv_tampered) (method Sample.hv_tampered)
        (path Sample.hv_tampered) = Ok signing_str
      ∧ auth_dict Sample.hv_tampered !! "signature" = Some sig
      ∧ outcome (_verify (E := Sample.externals)
                   (base Sample.hv_tampered) signing_str (Str sig))
        = Ok false.
Proof.
  apply (boolean_answer_implies_policy (E := Sample.externals)
           Sample.hv_tampered false).
  vm_compute. reflexivity.
Defined.

Lemma hmac_verifier_accepts_exactly_matching_digest_witness :
  outcome (verify (E := Sample.externals) Sample.hv_signed) = Ok true.
Proof.
  apply (hmac_verifier_accepts_exactly_matching_digest
           (E := Sample.externals) Sample.hv_signed eq_refl).
  split.
  - intros r Hr. vm_compute in Hr. apply list_elem_of_singleton in Hr.
    subst r. vm_compute. apply list_elem_of_here.
  - exists (Str "date: Tue, 07 Jun 2014 20:51:35 GMT"), "X9kj",
      (PyStr.to_bytes "date: Tue, 07 Jun 2014 20:51:35 GMT"),
      (PyStr.to_bytes "X9kj").
    repeat split; vm_compute; reflexivity.
Defined.
